(** * sysrepo-plugin-system: the IP address value and the host clock accessor

  A shallow embedding of [src/data/ip_address.c] (both build modes of
  [system_ip_address_t]) and of [SystemState::getClockInfo] from
  [src/core/api.cpp], with the libc calls they rely on ([inet_ntop],
  [snprintf], [free], [time], [localtime], [strftime], [sysinfo]) modelled
  after their documented behaviour on the target platform (Linux, glibc). *)

From Stdlib Require Import ZArith Lia List Ascii String.
From Stdlib.Strings Require Import Byte.
From stdpp Require Import base gmap list strings.
Import ListNotations.

Local Open Scope Z_scope.

(** ** C memory and C strings *)

Module Libc.

(** The bytes that follow a [char *]: the caller's buffer and whatever the
    object holds past the advertised capacity. *)
Abbreviation region := (list ascii).

Definition NUL : ascii := "000"%char.

Definition INT_MAX : Z := 2147483647.
Definition INT_MIN : Z := -2147483648.

(** The value an [int] holds after an addition: the sum kept to 32 bits, two's
    complement. *)
Definition wrap_int (x : Z) : Z := (x + 2 ^ 31) mod 2 ^ 32 - 2 ^ 31.

(** The C string found at the start of a region: the characters before the
    first NUL. *)
Fixpoint c_str (m : region) : string :=
  match m with
  | [] => EmptyString
  | c :: m' => if Ascii.eqb c NUL then EmptyString else String c (c_str m')
  end.

(** The characters [%s] prints for a stored text: those before a NUL. *)
Definition c_chars (s : string) : list ascii :=
  list_ascii_of_string (c_str (list_ascii_of_string s)).

(** Writing [bs] at the start of a region; the region keeps its extent. *)
Definition store (bs : list ascii) (m : region) : region :=
  take (length m) (bs ++ drop (length bs) m).

(** [strcpy(dst, src)]: the characters and the terminator. *)
Definition strcpy (dst : region) (src : list ascii) : region :=
  store (src ++ [NUL]) dst.

(** [snprintf(buffer, size, "%s", text)]: at most [size - 1] characters and
    a terminator are stored (nothing when [size] is 0); the result is the
    number of characters the full text has, or a negative value when that
    number does not fit an [int]. *)
Definition snprintf_s (buffer : region) (size : nat) (text : list ascii)
  : Z * region :=
  let n := Z.of_nat (length text) in
  (if n <=? INT_MAX then n else -1,
   match size with
   | O => buffer
   | S k => store (take k text ++ [NUL]) buffer
   end).

(** *** Printing numbers *)

Definition digit_char (d : Z) : ascii :=
  if d <? 10 then ascii_of_N (Z.to_N (48 + d)) else ascii_of_N (Z.to_N (87 + d)).

(** The digits of a non-negative number in base [b], most significant first,
    at most [fuel] of them (ten cover an [int] in base ten). *)
Fixpoint digits (b : Z) (fuel : nat) (n : Z) (acc : list ascii) : list ascii :=
  match fuel with
  | O => acc
  | S f =>
      let acc' := digit_char (n mod b) :: acc in
      if n / b =? 0 then acc' else digits b f (n / b) acc'
  end.

(** [%u] / [%d] of a non-negative value and [%x]. *)
Definition print_dec (n : Z) : list ascii := digits 10 10 n [].
Definition print_hex (n : Z) : list ascii := digits 16 8 n [].

(** [%d] and [%0wd]. *)
Definition print_int (n : Z) : list ascii :=
  if n <? 0 then "-"%char :: print_dec (- n) else print_dec n.

Definition print_padded (w : nat) (n : Z) : list ascii :=
  let s := print_int n in
  if n <? 0 then "-"%char :: replicate (w - length s) "0"%char ++ print_dec (- n)
  else replicate (w - length s) "0"%char ++ s.

(** *** [inet_ntop] *)

Definition AF_UNSPEC : Z := 0.
Definition AF_INET : Z := 2.
Definition AF_INET6 : Z := 10.

Definition octet (src : list byte) (i : nat) : Z :=
  Z.of_N (Byte.to_N (nth i src x00)).

(** The text [inet_ntop4] builds in its local array: ["%u.%u.%u.%u"]. *)
Definition inet_ntop4_text (src : list byte) : list ascii :=
  print_dec (octet src 0) ++ "."%char :: print_dec (octet src 1) ++
  "."%char :: print_dec (octet src 2) ++ "."%char :: print_dec (octet src 3).

(** [None] is the NULL result (ENOSPC); nothing is stored in that case. *)
Definition inet_ntop4 (src : list byte) (dst : region) (size : nat)
  : option region :=
  let tmp := inet_ntop4_text src in
  if (size <=? length tmp)%nat then None else Some (strcpy dst tmp).

(** A run of zero words: [base = -1] when there is none. *)
Record run := { base : Z; len : Z }.

Definition no_run : run := {| base := -1; len := 0 |}.

Definition better (best cur : run) : run :=
  if (base best =? -1) || (len cur >? len best) then cur else best.

(** One round of the loop that looks for the longest run of zero words. *)
Definition scan_step (st : run * run) (iw : Z * Z) : run * run :=
  let '(best, cur) := st in
  let '(i, w) := iw in
  if w =? 0 then
    (best,
     if base cur =? -1 then {| base := i; len := 1 |}
     else {| base := base cur; len := len cur + 1 |})
  else if base cur =? -1 then (best, cur)
  else (better best cur, {| base := -1; len := len cur |}).

Definition words_of (src : list byte) : list Z :=
  map (fun i => Z.lor (Z.shiftl (octet src (2 * i)) 8) (octet src (2 * i + 1)))
      (seq 0 8).

Definition indexed (ws : list Z) : list (Z * Z) :=
  combine (map Z.of_nat (seq 0 (length ws))) ws.

Definition best_run (ws : list Z) : run :=
  let '(best, cur) := fold_left scan_step (indexed ws) (no_run, no_run) in
  let best := if base cur =? -1 then best else better best cur in
  if negb (base best =? -1) && (len best <? 2) then
    {| base := -1; len := len best |}
  else best.

Definition in_run (r : run) (i : Z) : bool :=
  negb (base r =? -1) && (base r <=? i) && (i <? base r + len r).

Definition encapsulated_v4 (best : run) (ws : list Z) (i : Z) : bool :=
  (i =? 6) && (base best =? 0) &&
  ((len best =? 6) || ((len best =? 5) && (nth 5 ws 0 =? 65535))).

(** The loop that fills the local array [tmp] (46 bytes); [None] is the
    early [return NULL] of the nested [inet_ntop4] call. *)
Fixpoint emit (best : run) (src : list byte) (ws : list Z)
    (rest : list (Z * Z)) (tp : list ascii) : option (list ascii) :=
  match rest with
  | [] => Some tp
  | (i, w) :: rest' =>
      if in_run best i then
        emit best src ws rest' (if i =? base best then tp ++ [":"%char] else tp)
      else
        let tp := if i =? 0 then tp else tp ++ [":"%char] in
        if encapsulated_v4 best ws i then
          let v4 := inet_ntop4_text (drop 12 src) in
          if (46 - length tp <=? length v4)%nat then None else Some (tp ++ v4)
        else emit best src ws rest' (tp ++ print_hex w)
  end.

Definition inet_ntop6_text (src : list byte) : option (list ascii) :=
  let ws := words_of src in
  let best := best_run ws in
  match emit best src ws (indexed ws) [] with
  | None => None
  | Some tp =>
      Some (if negb (base best =? -1) && (base best + len best =? 8)
            then tp ++ [":"%char] else tp)
  end.

Definition inet_ntop6 (src : list byte) (dst : region) (size : nat)
  : option region :=
  match inet_ntop6_text src with
  | None => None
  | Some tmp =>
      if (size <? length tmp + 1)%nat then None else Some (strcpy dst tmp)
  end.

Definition inet_ntop (af : Z) (src : list byte) (dst : region) (size : nat)
  : option region :=
  if af =? AF_INET then inet_ntop4 src dst size
  else if af =? AF_INET6 then inet_ntop6 src dst size
  else None.

End Libc.

(** ** The address value, structured build ([SYSTEMD] defined) *)

Module Structured.
Import Libc.

(** Modelled from the spec: the declaration of [system_ip_address_t]
    ([ip_address.h] is not among the sources). In this build it holds the
    family tag and a union of [v4] (4 bytes) and [v6] (16 bytes); [value] is
    the storage of that union, both members starting at its first byte. *)
Record system_ip_address_t := {
  value : list byte;
  family : Z
}.

Definition v4 (a : system_ip_address_t) : list byte := take 4 (value a).
Definition v6 (a : system_ip_address_t) : list byte := take 16 (value a).

Definition system_ip_address_init (address : system_ip_address_t)
  : system_ip_address_t :=
  {| value := replicate 16 x00; family := 0 |}.

Definition system_ip_address_to_str (address : system_ip_address_t)
    (buffer : region) (buffer_size : nat) : Z * region :=
  if family address =? AF_INET then
    match inet_ntop AF_INET (v4 address) buffer buffer_size with
    | None => (-1, buffer)
    | Some buffer' => (0, buffer')
    end
  else if family address =? AF_INET6 then
    match inet_ntop AF_INET6 (v6 address) buffer buffer_size with
    | None => (-1, buffer)
    | Some buffer' => (-1, buffer')
    end
  else (-1, buffer).

Definition system_ip_address_free (address : system_ip_address_t)
  : system_ip_address_t :=
  system_ip_address_init address.

End Structured.

(** ** The address value, plain-text build ([SYSTEMD] not defined) *)

Module Plain.
Import Libc.

(** Modelled from the spec: the declaration of [system_ip_address_t]
    ([ip_address.h] is not among the sources). In this build [value] is a
    [char *] to an owned, NUL-terminated text (0 is the null pointer); the
    family tag is kept beside it. *)
Record system_ip_address_t := {
  family : Z;
  value : Z
}.

Definition NULL : Z := 0.

(** The allocator's view of memory: the live blocks with the text each one
    holds, and the pointers handed to [free] so far, latest first. *)
Record memory := {
  blocks : gmap Z string;
  freed : list Z
}.

(** [free(p)] for a non-null [p]: [None] when [p] is not a live block (a
    double free or a wild pointer). *)
Definition free (p : Z) (m : memory) : option memory :=
  match blocks m !! p with
  | Some _ => Some {| blocks := delete p (blocks m); freed := p :: freed m |}
  | None => None
  end.

(** What [%s] reads through a pointer: the text of a live block; glibc prints
    ["(null)"] for the null pointer (ISO C leaves that case undefined); any
    other pointer cannot be read ([None]). *)
Definition text_at (m : memory) (p : Z) : option string :=
  if p =? NULL then Some "(null)"%string else blocks m !! p.

Definition system_ip_address_init (address : system_ip_address_t)
  : system_ip_address_t :=
  {| family := 0; value := NULL |}.

Definition system_ip_address_to_str (m : memory) (address : system_ip_address_t)
    (buffer : region) (buffer_size : nat) : option (Z * region) :=
  match text_at m (value address) with
  | None => None
  | Some text =>
      let '(n, buffer') := snprintf_s buffer buffer_size (c_chars text) in
      Some (if n >? 0 then 0 else -1, buffer')
  end.

Definition system_ip_address_free (address : system_ip_address_t) (m : memory)
  : option (system_ip_address_t * memory) :=
  if negb (value address =? NULL) then
    match free (value address) m with
    | None => None
    | Some m' => Some (system_ip_address_init address, m')
    end
  else Some (system_ip_address_init address, m).

(** The invariant of the data model: the pointer is null or owns a live
    block. *)
Definition owned (m : memory) (address : system_ip_address_t) : Prop :=
  value address = NULL \/ is_Some (blocks m !! value address).

End Plain.

(** ** The host clock *)

Module Clock.
Import Libc.

Record tm := {
  tm_sec : Z;
  tm_min : Z;
  tm_hour : Z;
  tm_mday : Z;
  tm_mon : Z;
  tm_year : Z
}.

(** Dates within a 400-year era that starts on a 1 March, whose years run
    from March to February: the year that holds day [doe] of the era, the
    first day of a year, the month (0 is March) that holds day [doy] of a
    year, and the first day of a month. *)
Definition year_of_era (doe : Z) : Z :=
  (doe - doe / 1460 + doe / 36524 - doe / 146096) / 365.

Definition year_start (yoe : Z) : Z := 365 * yoe + yoe / 4 - yoe / 100.

Definition month_index (doy : Z) : Z := (5 * doy + 2) / 153.

Definition month_start (mp : Z) : Z := (153 * mp + 2) / 5.

(** The date of day [doe] of an era: the year within the era (January and
    February count for the next year), the month and the day of the month. *)
Definition civil_of_doe (doe : Z) : Z * Z * Z :=
  let yoe := year_of_era doe in
  let doy := doe - year_start yoe in
  let mp := month_index doy in
  let d := doy - month_start mp + 1 in
  let m := if mp <? 10 then mp + 3 else mp - 9 in
  (yoe + (if m <=? 2 then 1 else 0), m, d).

(** The proleptic Gregorian date of the day [z] days after 1970-01-01. *)
Definition civil_from_days (z : Z) : Z * Z * Z :=
  let z := z + 719468 in
  let '(y, m, d) := civil_of_doe (z mod 146097) in
  (y + 400 * (z / 146097), m, d).

(** Broken-down time of a count of seconds since 1970-01-01 00:00:00. *)
Definition offtime (t : Z) : tm :=
  let '(y, m, d) := civil_from_days (t / 86400) in
  let rem := t mod 86400 in
  {| tm_sec := rem mod 60;
     tm_min := rem mod 3600 / 60;
     tm_hour := rem / 3600;
     tm_mday := d;
     tm_mon := m - 1;
     tm_year := y - 1900 |}.

(** What the process sees of the host: the result of [time(NULL)] ([None]
    when it reports an error by returning [(time_t) -1]), the offset from UTC
    that the zone rules prescribe at each instant, and the uptime that
    [sysinfo] reports ([None] when it returns non-zero). *)
Record host := {
  host_time : option Z;
  host_utc_offset : Z -> Z;
  host_sysinfo : option Z
}.

Definition time (h : host) : Z :=
  match host_time h with
  | Some t => t
  | None => -1
  end.

(** [localtime]: [None] is the NULL result, given when the year does not fit
    the [int] field. The result points to one static [struct tm]; every use
    below reads it before the next call overwrites it. *)
Definition localtime (h : host) (t : Z) : option tm :=
  let ts := offtime (t + host_utc_offset h t) in
  if (INT_MIN <=? tm_year ts) && (tm_year ts <=? INT_MAX) then Some ts else None.

(** One conversion specification of [strftime]. The year and the month are
    sums ([tm_year + 1900], [tm_mon + 1]) that glibc computes in [int]. *)
Fixpoint conversion (depth : nat) (c : ascii) (ts : tm) : list ascii :=
  let sub c := match depth with O => [] | S k => conversion k c ts end in
  if Ascii.eqb c "Y" then print_int (wrap_int (1900 + tm_year ts))
  else if Ascii.eqb c "m" then print_padded 2 (wrap_int (tm_mon ts + 1))
  else if Ascii.eqb c "d" then print_padded 2 (tm_mday ts)
  else if Ascii.eqb c "H" then print_padded 2 (tm_hour ts)
  else if Ascii.eqb c "M" then print_padded 2 (tm_min ts)
  else if Ascii.eqb c "S" then print_padded 2 (tm_sec ts)
  else if Ascii.eqb c "F" then sub "Y"%char ++ "-"%char :: sub "m"%char ++ "-"%char :: sub "d"%char
  else if Ascii.eqb c "T" then sub "H"%char ++ ":"%char :: sub "M"%char ++ ":"%char :: sub "S"%char
  else if Ascii.eqb c "%" then ["%"%char]
  else [].

Fixpoint expand (format : string) (ts : tm) : list ascii :=
  match format with
  | EmptyString => []
  | String "%" (String c rest) => conversion 1 c ts ++ expand rest ts
  | String c rest => c :: expand rest ts
  end.

(** [strftime(s, max, format, ts)]: the number of characters stored and the
    array afterwards; when the text and its terminator do not fit, the result
    is 0 and the array keeps what it held. *)
Definition strftime (s : string) (max : nat) (format : string) (ts : tm)
  : nat * string :=
  let out := expand format ts in
  if (length out <? max)%nat then (length out, string_of_list_ascii out)
  else (O, s).

(** [time_t] arithmetic on a 64-bit host. *)
Definition wrap64 (x : Z) : Z := (x + 2 ^ 63) mod 2 ^ 64 - 2 ^ 63.

Record ClockInfo := {
  BootDatetime : string;
  CurrentDatetime : string
}.

(** A call either returns or throws [std::runtime_error] with a message. *)
Inductive outcome (A : Type) :=
| Returned (a : A)
| Thrown (what : string).
Arguments Returned {A} a.
Arguments Thrown {A} what.

(** [stack] is what the two uninitialised local arrays happen to hold. *)
Definition getClockInfo (h : host) (stack : string * string) : outcome ClockInfo :=
  let now := time h in
  match localtime h now with
  | None => Thrown "Failed to get current datetime."
  | Some ts =>
      let current_datetime := snd (strftime (fst stack) 256 "%FT%TZ" ts) in
      match host_sysinfo h with
      | None => Thrown "Failed to get system uptime."
      | Some uptime_seconds =>
          let diff := wrap64 (now - uptime_seconds) in
          match localtime h diff with
          | None => Thrown "Failed to get boot datetime."
          | Some ts =>
              let boot_datetime := snd (strftime (snd stack) 256 "%FT%TZ" ts) in
              Returned {| BootDatetime := boot_datetime;
                          CurrentDatetime := current_datetime |}
          end
      end
  end.

(** A zone with daylight saving that ends at instant [t_end]: the offset
    drops from [dst] to [std] there. *)
Definition zone_fall_back (t_end dst std : Z) : Z -> Z :=
  fun t => if t <? t_end then dst else std.

End Clock.

(** ** Orders on dates and on texts *)

Module Order.
Import Libc Clock.

(** Dates in the order of the calendar. *)
Definition date_lt (a b : Z * Z * Z) : Prop :=
  let '(y1, m1, d1) := a in
  let '(y2, m2, d2) := b in
  y1 < y2 \/ (y1 = y2 /\ (m1 < m2 \/ (m1 = m2 /\ d1 < d2))).

(** Broken-down times in the order of the wall clock: by year, month, day,
    hour, minute and second. *)
Definition stamp_le (a b : tm) : Prop :=
  tm_year a < tm_year b \/ (tm_year a = tm_year b /\
  (tm_mon a < tm_mon b \/ (tm_mon a = tm_mon b /\
  (tm_mday a < tm_mday b \/ (tm_mday a = tm_mday b /\
  (tm_hour a < tm_hour b \/ (tm_hour a = tm_hour b /\
  (tm_min a < tm_min b \/ (tm_min a = tm_min b /\
   tm_sec a <= tm_sec b))))))))).

(** The comparison of [std::string]: character by character, a proper
    prefix first. *)
Definition string_le (s1 s2 : string) : Prop := String.leb s1 s2 = true.

(** Two decimal digits in front of a text. *)
Definition two_digits (v : Z) (rest : string) : string :=
  String (digit_char (v / 10)) (String (digit_char (v mod 10)) rest).

(** The text of a time stamp with a four-digit year. *)
Definition iso_text (Y M D h m s : Z) : string :=
  two_digits (Y / 100) (two_digits (Y mod 100) (String "-"
    (two_digits M (String "-" (two_digits D (String "T"
      (two_digits h (String ":" (two_digits m (String ":"
        (two_digits s "Z")))))))))))%string.

(** The instants whose wall-clock year has four digits: from
    1000-01-01 00:00:00 to 9999-12-31 23:59:59. *)
Definition four_digit_year (local : Z) : Prop :=
  -30610224000 <= local < 253402300800.

End Order.

(** ** The host name and the platform *)

Module HostInfo.
Import Libc Clock.

(** [struct utsname] as the kernel fills it: five character arrays. *)
Record utsname := {
  sysname : region;
  nodename : region;
  release : region;
  version : region;
  machine : region
}.

(** [uname(&buf)]: [None] when the call fails (a negative result), the
    kernel's structure otherwise. *)
Definition uname (kernel : option utsname) : option utsname := kernel.

(** [gethostname(name, len)] as glibc has it on Linux: the node name of
    [uname] and its terminator are copied, as far as [len] allows, and the
    result is -1 when they do not fit or when [uname] fails. *)
Definition gethostname (kernel : option utsname) (name : region) (len : nat)
  : Z * region :=
  match uname kernel with
  | None => (-1, name)
  | Some buf =>
      let node := list_ascii_of_string (c_str (nodename buf)) ++ [NUL] in
      let node_len := length node in
      (if (len <? node_len)%nat then -1 else 0,
       store (take (len `min` node_len) node) name)
  end.

(** Modelled from the spec: the constant [HOSTNAME_MAX_LEN]
    ([core/common.hpp] is not among the sources); it is an argument here. *)
Definition getHostname (HOSTNAME_MAX_LEN : nat) (kernel : option utsname)
  : outcome string :=
  let hostname := replicate (HOSTNAME_MAX_LEN + 1) NUL in
  let '(r, hostname) := gethostname kernel hostname (HOSTNAME_MAX_LEN + 1) in
  if r <? 0 then Thrown "Failed to get hostname."
  else Returned (c_str hostname).

(** Modelled from the spec: the declaration of [PlatformInfo]
    ([core/types.hpp] is not among the sources); the four fields are the
    ones the function initialises, each a [std::string]. *)
Record PlatformInfo := {
  OsName : string;
  OsRelease : string;
  OsVersion : string;
  Machine : string
}.

(** Each field is built from a character array, so it holds the characters
    before the first NUL. *)
Definition getPlatformInfo (kernel : option utsname) : outcome PlatformInfo :=
  match uname kernel with
  | None => Thrown "Failed to get platform information."
  | Some uname_data =>
      Returned {| OsName := c_str (sysname uname_data);
                  OsRelease := c_str (release uname_data);
                  OsVersion := c_str (version uname_data);
                  Machine := c_str (machine uname_data) |}
  end.

(** A character array of the kernel: [size] bytes with a terminator among
    them. *)
Definition terminated (size : nat) (m : region) : Prop :=
  length m = size /\ NUL ∈ m.

End HostInfo.

(** ** Well-formed time stamps *)

Module Stamp.
Import Libc Clock Order.

(** Broken-down times strictly in the order of the wall clock. *)
Definition stamp_lt (a b : tm) : Prop :=
  tm_year a < tm_year b \/ (tm_year a = tm_year b /\
  (tm_mon a < tm_mon b \/ (tm_mon a = tm_mon b /\
  (tm_mday a < tm_mday b \/ (tm_mday a = tm_mday b /\
  (tm_hour a < tm_hour b \/ (tm_hour a = tm_hour b /\
  (tm_min a < tm_min b \/ (tm_min a = tm_min b /\
   tm_sec a < tm_sec b))))))))).


End Stamp.

(** * Properties *)

Import Libc.

(** ** The models at work *)

Section Examples.
Import Clock.

Example inet_ntop6_text_loopback :
  inet_ntop6_text (replicate 15 x00 ++ [x01]) = Some (list_ascii_of_string "::1").
Proof. reflexivity. Qed.

Example inet_ntop6_text_link_local :
  inet_ntop6_text ([xfe; x80] ++ replicate 13 x00 ++ [x01])
  = Some (list_ascii_of_string "fe80::1").
Proof. reflexivity. Qed.

Example inet_ntop6_text_mapped :
  inet_ntop6_text (replicate 10 x00 ++ [xff; xff; xc0; xa8; x00; x01])
  = Some (list_ascii_of_string "::ffff:192.168.0.1").
Proof. reflexivity. Qed.

Example inet_ntop6_text_first_longest_run :
  inet_ntop6_text [x20; x01; x0d; xb8; x00; x00; x00; x00;
                   x00; x01; x00; x00; x00; x00; x00; x01]
  = Some (list_ascii_of_string "2001:db8::1:0:0:1").
Proof. reflexivity. Qed.

Example inet_ntop4_text_broadcast :
  inet_ntop4_text [xff; xff; xff; xff] = list_ascii_of_string "255.255.255.255".
Proof. reflexivity. Qed.

Example offtime_epoch :
  offtime 0 = {| tm_sec := 0; tm_min := 0; tm_hour := 0; tm_mday := 1;
                 tm_mon := 0; tm_year := 70 |}.
Proof. reflexivity. Qed.

Example offtime_leap_day :
  offtime 951827696 = {| tm_sec := 56; tm_min := 34; tm_hour := 12;
                         tm_mday := 29; tm_mon := 1; tm_year := 100 |}.
Proof. reflexivity. Qed.

Example offtime_before_epoch :
  offtime (-1) = {| tm_sec := 59; tm_min := 59; tm_hour := 23; tm_mday := 31;
                    tm_mon := 11; tm_year := 69 |}.
Proof. reflexivity. Qed.

Example expand_last_year :
  string_of_list_ascii (expand "%FT%TZ" (offtime 67768036191676799))
  = "-2147481749-12-31T23:59:59Z"%string.
Proof. vm_compute. reflexivity. Qed.

Example getClockInfo_last_year :
  getClockInfo {| host_time := Some 67768036191676799;
                  host_utc_offset := fun _ => 0;
                  host_sysinfo := Some 0 |} (EmptyString, EmptyString)
  = Returned {| BootDatetime := "-2147481749-12-31T23:59:59Z";
                CurrentDatetime := "-2147481749-12-31T23:59:59Z" |}.
Proof. vm_compute. reflexivity. Qed.

Example expand_epoch :
  string_of_list_ascii (expand "%FT%TZ" (offtime 0)) = "1970-01-01T00:00:00Z"%string.
Proof. reflexivity. Qed.

End Examples.

(** ** Regions *)

Section Regions.
Implicit Types (bs : list ascii) (m : region).

Lemma length_store bs m : length (store bs m) = length m.
Proof.
  unfold store. rewrite length_take, length_app, length_drop. lia.
Qed.

Lemma store_fits bs m :
  (length bs <= length m)%nat -> store bs m = bs ++ drop (length bs) m.
Proof.
  intros Hle. unfold store. apply take_ge.
  rewrite length_app, length_drop. lia.
Qed.

(** A store of [k] bytes leaves every byte from offset [k] on as it was. *)
Lemma store_lookup_ge bs m (i : nat) :
  (length bs <= i)%nat -> store bs m !! i = m !! i.
Proof.
  intros Hle. unfold store.
  destruct (decide (i < length m)%nat) as [Hlt|Hge].
  - rewrite lookup_take_lt by lia. rewrite lookup_app_r by lia.
    rewrite lookup_drop. f_equal. lia.
  - rewrite lookup_take_ge by lia. symmetry. apply lookup_ge_None. lia.
Qed.

End Regions.

(** ** Printing *)

Lemma length_digits b fuel : forall n acc,
  (length (digits b fuel n acc) <= fuel + length acc)%nat.
Proof.
  induction fuel as [|f IH]; intros n acc; simpl; [lia|].
  destruct (n / b =? 0); simpl; [lia|].
  etransitivity; [apply IH|]. simpl. lia.
Qed.

Lemma digits_extends b fuel : forall n acc,
  (length acc <= length (digits b fuel n acc))%nat.
Proof.
  induction fuel as [|f IH]; intros n acc; simpl; [lia|].
  destruct (n / b =? 0); simpl; [lia|].
  etransitivity; [|apply IH]. simpl. lia.
Qed.

Lemma digits_nonempty b fuel n acc :
  (1 <= length (digits b (S fuel) n acc))%nat.
Proof.
  simpl. destruct (n / b =? 0); simpl; [lia|].
  etransitivity; [|apply digits_extends]. simpl. lia.
Qed.

Lemma length_print_dec n : (1 <= length (print_dec n) <= 10)%nat.
Proof.
  unfold print_dec. split.
  - apply (digits_nonempty 10 9 n []).
  - pose proof (length_digits 10 10 n []). simpl in *. lia.
Qed.

Lemma length_print_int n : (length (print_int n) <= 11)%nat.
Proof.
  unfold print_int. destruct (n <? 0); simpl.
  - pose proof (length_print_dec (- n)). lia.
  - pose proof (length_print_dec n). lia.
Qed.

Lemma length_print_padded n : (length (print_padded 2 n) <= 11)%nat.
Proof.
  unfold print_padded, print_int. destruct (n <? 0); simpl.
  - rewrite length_app, length_replicate.
    pose proof (length_print_dec (- n)). lia.
  - rewrite length_app, length_replicate.
    pose proof (length_print_dec n). lia.
Qed.

(** ** The structured build *)

Section StructuredFacts.
Import Structured.
Implicit Types (a : system_ip_address_t) (buffer : region) (n : nat).

Lemma inet_ntop4_in_bounds src buffer n buffer' :
  inet_ntop4 src buffer n = Some buffer' ->
  length buffer' = length buffer /\
  forall i : nat, (n <= i)%nat -> buffer' !! i = buffer !! i.
Proof.
  unfold inet_ntop4, strcpy. destruct (n <=? _)%nat eqn:E; [discriminate|].
  apply Nat.leb_gt in E. intros [= <-].
  split; [apply length_store|]. intros i Hi.
  apply store_lookup_ge. rewrite length_app. simpl. lia.
Qed.

Lemma inet_ntop6_in_bounds src buffer n buffer' :
  inet_ntop6 src buffer n = Some buffer' ->
  length buffer' = length buffer /\
  forall i : nat, (n <= i)%nat -> buffer' !! i = buffer !! i.
Proof.
  unfold inet_ntop6, strcpy.
  generalize (inet_ntop6_text src). intros [tmp|]; [|discriminate].
  destruct (n <? _)%nat eqn:E; [discriminate|].
  apply Nat.ltb_ge in E. intros [= <-].
  split; [apply length_store|]. intros i Hi.
  apply store_lookup_ge. rewrite length_app. simpl. lia.
Qed.

Lemma inet_ntop_inet src buffer n :
  inet_ntop AF_INET src buffer n = inet_ntop4 src buffer n.
Proof. reflexivity. Qed.

Lemma inet_ntop_inet6 src buffer n :
  inet_ntop AF_INET6 src buffer n = inet_ntop6 src buffer n.
Proof. reflexivity. Qed.

(** The function with the two [inet_ntop] calls resolved to their family. *)
Lemma to_str_unfold a buffer n :
  system_ip_address_to_str a buffer n =
  if family a =? AF_INET then
    match inet_ntop4 (v4 a) buffer n with
    | None => (-1, buffer)
    | Some buffer' => (0, buffer')
    end
  else if family a =? AF_INET6 then
    match inet_ntop6 (v6 a) buffer n with
    | None => (-1, buffer)
    | Some buffer' => (-1, buffer')
    end
  else (-1, buffer).
Proof.
  unfold system_ip_address_to_str.
  rewrite inet_ntop_inet, inet_ntop_inet6. reflexivity.
Qed.

(** X3. Structured build: whatever the family, the value and the capacity,
    no byte at or past offset [buffer_size] changes, and the region keeps its
    extent. *)
Lemma structured_to_str_in_bounds a buffer n :
  length (snd (system_ip_address_to_str a buffer n)) = length buffer /\
  forall i : nat, (n <= i)%nat ->
    snd (system_ip_address_to_str a buffer n) !! i = buffer !! i.
Proof.
  rewrite to_str_unfold.
  destruct (family a =? AF_INET).
  - pose proof (inet_ntop4_in_bounds (v4 a) buffer n) as H.
    destruct (inet_ntop4 (v4 a) buffer n) as [b|]; cbn [snd]; auto.
  - destruct (family a =? AF_INET6); [|cbn [snd]; auto].
    pose proof (inet_ntop6_in_bounds (v6 a) buffer n) as H.
    destruct (inet_ntop6 (v6 a) buffer n) as [b|]; cbn [snd]; auto.
Qed.

(** The IPv6 branch never reports success: after a successful [inet_ntop]
    it leaves the [switch] and reaches the final [return -1]. *)
Lemma structured_inet6_result a buffer n :
  family a = AF_INET6 -> fst (system_ip_address_to_str a buffer n) = -1.
Proof.
  intros Hf. rewrite to_str_unfold, Hf.
  change (AF_INET6 =? AF_INET) with false.
  change (AF_INET6 =? AF_INET6) with true. cbv iota.
  destruct (inet_ntop6 _ _ _); reflexivity.
Qed.

(** An IPv4 value whose text does not fit (terminator included) is refused
    and the buffer is left as it was. *)
Lemma structured_inet_too_small a buffer n :
  family a = AF_INET ->
  (n <= length (inet_ntop4_text (v4 a)))%nat ->
  system_ip_address_to_str a buffer n = (-1, buffer).
Proof.
  intros Hf Hn. rewrite to_str_unfold, Hf.
  change (AF_INET =? AF_INET) with true. cbv iota.
  unfold inet_ntop4.
  destruct (n <=? _)%nat eqn:E; [reflexivity|].
  apply Nat.leb_gt in E. lia.
Qed.

(** So is an IPv6 value whose text does not fit. *)
Lemma structured_inet6_too_small a buffer n text :
  family a = AF_INET6 ->
  inet_ntop6_text (v6 a) = Some text ->
  (n <= length text)%nat ->
  system_ip_address_to_str a buffer n = (-1, buffer).
Proof.
  intros Hf Ht Hn. rewrite to_str_unfold, Hf.
  change (AF_INET6 =? AF_INET) with false.
  change (AF_INET6 =? AF_INET6) with true. cbv iota.
  unfold inet_ntop6. rewrite Ht.
  destruct (n <? _)%nat eqn:E; [reflexivity|].
  apply Nat.ltb_ge in E. lia.
Qed.

End StructuredFacts.

Section StructuredClaims.
Import Structured.
Implicit Types (a : system_ip_address_t) (buffer : region) (n : nat).

(** C8. Structured build: an IPv4 value holding the bytes 127, 0, 0, 1 and a
    buffer of at least ten bytes give result 0, and the buffer then starts
    with the nine characters of "127.0.0.1" and a terminator, the rest of it
    untouched. *)
Theorem to_str_inet_loopback a buffer n :
  family a = AF_INET ->
  v4 a = [x7f; x00; x00; x01] ->
  (10 <= n)%nat -> (n <= length buffer)%nat ->
  system_ip_address_to_str a buffer n
    = (0, list_ascii_of_string "127.0.0.1" ++ NUL :: drop 10 buffer) /\
  c_str (snd (system_ip_address_to_str a buffer n)) = "127.0.0.1"%string.
Proof.
  intros Hf Hv Hn Hcap.
  assert (E : system_ip_address_to_str a buffer n
     = (0, list_ascii_of_string "127.0.0.1" ++ NUL :: drop 10 buffer)).
  { rewrite to_str_unfold, Hf.
    change (AF_INET =? AF_INET) with true. cbv iota.
    unfold inet_ntop4. rewrite Hv.
    change (inet_ntop4_text [x7f; x00; x00; x01])
      with (list_ascii_of_string "127.0.0.1").
    destruct (n <=? _)%nat eqn:E; [apply Nat.leb_le in E; simpl in E; lia|].
    unfold strcpy. rewrite store_fits by (simpl; lia). reflexivity. }
  split; [exact E|]. rewrite E. reflexivity.
Qed.

Lemma to_str_inet_loopback_witness :
  system_ip_address_to_str
    {| value := [x7f; x00; x00; x01] ++ replicate 12 x00; family := AF_INET |}
    (replicate 16 "x"%char) 16
    = (0, list_ascii_of_string "127.0.0.1" ++ NUL :: replicate 6 "x"%char) /\
  c_str (snd (system_ip_address_to_str
    {| value := [x7f; x00; x00; x01] ++ replicate 12 x00; family := AF_INET |}
    (replicate 16 "x"%char) 16)) = "127.0.0.1"%string.
Proof.
  apply (to_str_inet_loopback
    {| value := [x7f; x00; x00; x01] ++ replicate 12 x00; family := AF_INET |}
    (replicate 16 "x"%char) 16); [reflexivity | reflexivity | lia | simpl; lia].
Defined.

(** C10. Structured build: a family other than AF_INET and AF_INET6 gives
    result -1 and the buffer is returned as it was received. *)
Theorem to_str_other_family a buffer n :
  family a <> AF_INET -> family a <> AF_INET6 ->
  system_ip_address_to_str a buffer n = (-1, buffer).
Proof.
  intros H4 H6. rewrite to_str_unfold.
  destruct (family a =? AF_INET) eqn:E4; [apply Z.eqb_eq in E4; contradiction|].
  destruct (family a =? AF_INET6) eqn:E6; [apply Z.eqb_eq in E6; contradiction|].
  reflexivity.
Qed.

Lemma to_str_other_family_witness :
  system_ip_address_to_str {| value := replicate 16 xff; family := AF_UNSPEC |}
    (replicate 8 "x"%char) 8 = (-1, replicate 8 "x"%char).
Proof.
  apply (to_str_other_family {| value := replicate 16 xff; family := AF_UNSPEC |}
    (replicate 8 "x"%char) 8); simpl; unfold AF_UNSPEC, AF_INET, AF_INET6; lia.
Defined.

(** C1. Structured build, the all-zero IPv6 value and a 46-byte buffer: the
    text "::" is stored, yet the result is -1 and not 0. *)
Theorem to_str_inet6_all_zero :
  system_ip_address_to_str {| value := replicate 16 x00; family := AF_INET6 |}
    (replicate 46 "x"%char) 46
    = (-1, list_ascii_of_string "::" ++ NUL :: replicate 43 "x"%char) /\
  c_str (snd (system_ip_address_to_str
    {| value := replicate 16 x00; family := AF_INET6 |}
    (replicate 46 "x"%char) 46)) = "::"%string.
Proof. split; vm_compute; reflexivity. Qed.

End StructuredClaims.

(** ** The plain-text build *)

Section PlainFacts.
Import Plain.
Implicit Types (a : system_ip_address_t) (buffer : region) (n : nat) (m : memory).

Lemma snprintf_s_in_bounds buffer n text :
  length (snd (snprintf_s buffer n text)) = length buffer /\
  forall i : nat, (n <= i)%nat -> snd (snprintf_s buffer n text) !! i = buffer !! i.
Proof.
  unfold snprintf_s. simpl. destruct n as [|k]; [auto|].
  split; [apply length_store|]. intros i Hi. apply store_lookup_ge.
  rewrite length_app, length_take. simpl. lia.
Qed.

(** X7. Plain-text build: whatever the text and the capacity, no byte at or
    past offset [buffer_size] changes, and the region keeps its extent. *)
Lemma plain_to_str_in_bounds m a buffer n r buffer' :
  system_ip_address_to_str m a buffer n = Some (r, buffer') ->
  length buffer' = length buffer /\
  forall i : nat, (n <= i)%nat -> buffer' !! i = buffer !! i.
Proof.
  unfold system_ip_address_to_str.
  destruct (text_at m (value a)) as [text|]; [|discriminate].
  pose proof (snprintf_s_in_bounds buffer n (c_chars text)) as H.
  destruct (snprintf_s buffer n (c_chars text)) as [k b]. simpl in H.
  intros [= <- <-]. exact H.
Qed.

(** The family tag is never read. *)
Lemma plain_to_str_ignores_family m a f buffer n :
  system_ip_address_to_str m {| family := f; value := value a |} buffer n
  = system_ip_address_to_str m a buffer n.
Proof. reflexivity. Qed.

Lemma text_at_live m p s :
  p <> NULL -> blocks m !! p = Some s -> text_at m p = Some s.
Proof.
  intros Hp Hs. unfold text_at.
  destruct (p =? NULL) eqn:E; [apply Z.eqb_eq in E; contradiction|exact Hs].
Qed.

End PlainFacts.

Section PlainClaims.
Import Plain.
Implicit Types (a : system_ip_address_t) (buffer : region) (n : nat) (m : memory).

(** C7. Plain-text build: for a value that owns the text "10.0.0.1" and a
    buffer of at least nine bytes the result is 0 and the buffer then starts
    with the eight characters of the text and a terminator, the rest of it
    untouched; the same holds whatever the family field is set to. *)
Theorem to_str_plain_copies m a buffer n :
  value a <> NULL ->
  blocks m !! value a = Some "10.0.0.1"%string ->
  (9 <= n)%nat -> (n <= length buffer)%nat ->
  system_ip_address_to_str m a buffer n
    = Some (0, list_ascii_of_string "10.0.0.1" ++ NUL :: drop 9 buffer) /\
  c_str (list_ascii_of_string "10.0.0.1" ++ NUL :: drop 9 buffer)
    = "10.0.0.1"%string /\
  forall f,
    system_ip_address_to_str m {| family := f; value := value a |} buffer n
    = Some (0, list_ascii_of_string "10.0.0.1" ++ NUL :: drop 9 buffer).
Proof.
  intros Hp Hs Hn Hcap.
  assert (E : system_ip_address_to_str m a buffer n
    = Some (0, list_ascii_of_string "10.0.0.1" ++ NUL :: drop 9 buffer)).
  { unfold system_ip_address_to_str. rewrite (text_at_live _ _ _ Hp Hs).
    change (c_chars "10.0.0.1") with (list_ascii_of_string "10.0.0.1").
    unfold snprintf_s. destruct n as [|k]; [lia|].
    rewrite take_ge by (simpl; lia).
    rewrite store_fits by (simpl; lia). reflexivity. }
  split; [exact E|]. split; [reflexivity|].
  intros f. rewrite plain_to_str_ignores_family. exact E.
Qed.

Lemma to_str_plain_copies_witness :
  system_ip_address_to_str
    {| blocks := {[ 4096 := "10.0.0.1"%string ]}; freed := [] |}
    {| family := AF_INET6; value := 4096 |} (replicate 12 "x"%char) 12
    = Some (0, list_ascii_of_string "10.0.0.1" ++ NUL :: replicate 3 "x"%char) /\
  c_str (list_ascii_of_string "10.0.0.1" ++ NUL :: replicate 3 "x"%char)
    = "10.0.0.1"%string /\
  forall f,
    system_ip_address_to_str
      {| blocks := {[ 4096 := "10.0.0.1"%string ]}; freed := [] |}
      {| family := f; value := 4096 |} (replicate 12 "x"%char) 12
    = Some (0, list_ascii_of_string "10.0.0.1" ++ NUL :: replicate 3 "x"%char).
Proof.
  apply (to_str_plain_copies
    {| blocks := {[ 4096 := "10.0.0.1"%string ]}; freed := [] |}
    {| family := AF_INET6; value := 4096 |} (replicate 12 "x"%char) 12);
    [unfold NULL; simpl; lia | reflexivity | lia | simpl; lia].
Defined.

(** C2. Plain-text build, the text "10.0.0.1" and a capacity of 4: the
    result is 0, not -1, and the buffer holds the cut text "10." with its
    terminator; the bytes from offset 4 on are untouched. *)
Theorem to_str_plain_truncated :
  system_ip_address_to_str
    {| blocks := {[ 4096 := "10.0.0.1"%string ]}; freed := [] |}
    {| family := AF_INET; value := 4096 |} (replicate 12 "x"%char) 4
  = Some (0, list_ascii_of_string "10." ++ NUL :: replicate 8 "x"%char).
Proof. vm_compute. reflexivity. Qed.




(** C4. Release twice. Structured build: each call gives the state of
    [init]. Plain-text build, for a value that is null or owns a live block:
    the first call succeeds and gives the state of [init], handing the
    pointer to [free] once if it is not null and never otherwise; the second
    call succeeds too, gives the state of [init] again and leaves the
    allocator as the first call left it, so nothing is freed twice. *)
Theorem free_idempotent :
  (forall sa,
     Structured.system_ip_address_free sa = Structured.system_ip_address_init sa /\
     Structured.system_ip_address_free (Structured.system_ip_address_free sa)
       = Structured.system_ip_address_init sa) /\
  (forall m a, owned m a ->
     exists m1,
       system_ip_address_free a m = Some (system_ip_address_init a, m1) /\
       system_ip_address_free (system_ip_address_init a) m1
         = Some (system_ip_address_init a, m1) /\
       freed m1 = (if value a =? NULL then freed m else value a :: freed m) /\
       blocks m1 = (if value a =? NULL then blocks m else delete (value a) (blocks m))).
Proof.
  split; [intros sa; split; reflexivity|].
  intros m a Hown. unfold system_ip_address_free at 1.
  destruct (value a =? NULL) eqn:E; simpl.
  - exists m. repeat split; reflexivity.
  - destruct Hown as [Hnull|[s Hs]]; [apply Z.eqb_neq in E; contradiction|].
    unfold free. rewrite Hs. eexists. repeat split; reflexivity.
Qed.

Lemma free_idempotent_witness :
  exists m1,
    system_ip_address_free {| family := AF_INET; value := 4096 |}
      {| blocks := {[ 4096 := "10.0.0.1"%string ]}; freed := [] |}
      = Some ({| family := 0; value := NULL |}, m1) /\
    system_ip_address_free {| family := 0; value := NULL |} m1
      = Some ({| family := 0; value := NULL |}, m1) /\
    freed m1 = [4096] /\
    blocks m1 = delete 4096 {[ 4096 := "10.0.0.1"%string ]}.
Proof.
  assert (Hown : owned
    {| blocks := {[ 4096 := "10.0.0.1"%string ]}; freed := [] |}
    {| family := AF_INET; value := 4096 |}).
  { right. exists "10.0.0.1"%string. reflexivity. }
  exact (proj2 free_idempotent _ _ Hown).
Defined.

End PlainClaims.

(** ** The calendar *)

Section CalendarFacts.
Import Clock Order.

Lemma year_of_era_spec doe :
  0 <= doe <= 146096 ->
  0 <= year_of_era doe <= 399 /\
  0 <= doe - year_start (year_of_era doe) <= 365 /\
  doe < year_start (year_of_era doe + 1)
        + (if year_of_era doe =? 399 then 1 else 0).
Proof.
  unfold year_of_era, year_start. intros H.
  destruct (_ =? 399) eqn:E; [apply Z.eqb_eq in E|apply Z.eqb_neq in E];
    Z.div_mod_to_equations; lia.
Qed.

Lemma year_start_monotone y1 y2 : y1 <= y2 -> year_start y1 <= year_start y2.
Proof. unfold year_start. intros H. Z.div_mod_to_equations. lia. Qed.

Lemma year_of_era_monotone d1 d2 :
  0 <= d1 <= d2 -> d2 <= 146096 -> year_of_era d1 <= year_of_era d2.
Proof.
  intros H1 H2.
  destruct (year_of_era_spec d1 ltac:(lia)) as (A1 & B1 & C1).
  destruct (year_of_era_spec d2 ltac:(lia)) as (A2 & B2 & C2).
  destruct (Z_le_gt_dec (year_of_era d1) (year_of_era d2)) as [|Hgt];
    [assumption|].
  pose proof (year_start_monotone (year_of_era d2 + 1) (year_of_era d1)
                ltac:(lia)).
  destruct (year_of_era d2 =? 399) eqn:E; [apply Z.eqb_eq in E|]; lia.
Qed.

Lemma month_spec doy :
  0 <= doy <= 365 ->
  0 <= month_index doy <= 11 /\
  1 <= doy - month_start (month_index doy) + 1 <= 31.
Proof.
  unfold month_index, month_start. intros H. Z.div_mod_to_equations. lia.
Qed.

Lemma month_index_monotone a b : a <= b -> month_index a <= month_index b.
Proof. unfold month_index. intros H. Z.div_mod_to_equations. lia. Qed.

Ltac split_tests :=
  repeat match goal with
         | |- context [?a <? ?b] => destruct (Z.ltb_spec a b)
         | |- context [?a <=? ?b] => destruct (Z.leb_spec a b)
         end.

Lemma civil_of_doe_range doe y m d :
  0 <= doe <= 146096 -> civil_of_doe doe = (y, m, d) ->
  0 <= y <= 400 /\ 1 <= m <= 12 /\ 1 <= d <= 31 /\
  (y = 400 -> m <= 2) /\ (y = 0 -> 3 <= m).
Proof.
  intros H. unfold civil_of_doe.
  destruct (year_of_era_spec doe H) as (A & B & _).
  destruct (month_spec _ B) as (C & D).
  intros [= <- <- <-]. split_tests; lia.
Qed.

(** Within an era, later days have later dates. *)
Lemma civil_of_doe_increasing d1 d2 :
  0 <= d1 < d2 -> d2 <= 146096 ->
  date_lt (civil_of_doe d1) (civil_of_doe d2).
Proof.
  intros H1 H2. unfold civil_of_doe, date_lt.
  destruct (year_of_era_spec d1 ltac:(lia)) as (A1 & B1 & _).
  destruct (year_of_era_spec d2 ltac:(lia)) as (A2 & B2 & _).
  pose proof (year_of_era_monotone d1 d2 ltac:(lia) H2) as Hy.
  destruct (month_spec _ B1) as (C1 & D1).
  destruct (month_spec _ B2) as (C2 & D2).
  assert (Hm : year_of_era d1 = year_of_era d2 ->
     month_index (d1 - year_start (year_of_era d1))
     <= month_index (d2 - year_start (year_of_era d2))).
  { intros E. apply month_index_monotone. rewrite E. lia. }
  set (y1 := year_of_era d1) in *. set (y2 := year_of_era d2) in *.
  set (s1 := year_start y1) in *. set (s2 := year_start y2) in *.
  assert (Hs : y1 = y2 -> s1 = s2)
    by (intros E; unfold s1, s2; rewrite E; reflexivity).
  set (p1 := month_index (d1 - s1)) in *.
  set (p2 := month_index (d2 - s2)) in *.
  assert (Hp : p1 = p2 -> month_start p1 = month_start p2)
    by (intros E; rewrite E; reflexivity).
  split_tests; lia.
Qed.

(** Later days have later dates. *)
Lemma civil_from_days_increasing z1 z2 :
  z1 < z2 -> date_lt (civil_from_days z1) (civil_from_days z2).
Proof.
  intros Hle. unfold civil_from_days.
  set (a := z1 + 719468). set (b := z2 + 719468).
  assert (Hab : a < b) by (unfold a, b; lia).
  pose proof (Z.mod_pos_bound a 146097 ltac:(lia)) as Ha.
  pose proof (Z.mod_pos_bound b 146097 ltac:(lia)) as Hb.
  pose proof (Z.div_mod a 146097 ltac:(lia)) as Ea.
  pose proof (Z.div_mod b 146097 ltac:(lia)) as Eb.
  destruct (decide (a / 146097 = b / 146097)) as [Heq|Hne].
  - pose proof (civil_of_doe_increasing (a mod 146097) (b mod 146097)
                  ltac:(lia) ltac:(lia)) as Hm.
    destruct (civil_of_doe (a mod 146097)) as [[y1 m1] d1].
    destruct (civil_of_doe (b mod 146097)) as [[y2 m2] d2].
    unfold date_lt in *. rewrite Heq. lia.
  - destruct (civil_of_doe (a mod 146097)) as [[y1 m1] d1] eqn:E1.
    destruct (civil_of_doe (b mod 146097)) as [[y2 m2] d2] eqn:E2.
    pose proof (civil_of_doe_range (a mod 146097) _ _ _ ltac:(lia) E1) as B1.
    pose proof (civil_of_doe_range (b mod 146097) _ _ _ ltac:(lia) E2) as B2.
    unfold date_lt. assert (a / 146097 < b / 146097) by lia. lia.
Qed.

Lemma civil_from_days_range z y m d :
  civil_from_days z = (y, m, d) -> 1 <= m <= 12 /\ 1 <= d <= 31.
Proof.
  unfold civil_from_days.
  pose proof (Z.mod_pos_bound (z + 719468) 146097 ltac:(lia)) as Hz.
  destruct (civil_of_doe ((z + 719468) mod 146097)) as [[y1 m1] d1] eqn:E.
  pose proof (civil_of_doe_range ((z + 719468) mod 146097) _ _ _ ltac:(lia) E) as B.
  intros [= <- <- <-]. lia.
Qed.

(** The fields of a broken-down time are in their ranges. *)
Lemma offtime_fields t :
  0 <= tm_sec (offtime t) <= 59 /\ 0 <= tm_min (offtime t) <= 59 /\
  0 <= tm_hour (offtime t) <= 23 /\ 1 <= tm_mday (offtime t) <= 31 /\
  0 <= tm_mon (offtime t) <= 11.
Proof.
  unfold offtime.
  destruct (civil_from_days (t / 86400)) as [[y m] d] eqn:E.
  apply civil_from_days_range in E. cbn [tm_sec tm_min tm_hour tm_mday tm_mon].
  Z.div_mod_to_equations. lia.
Qed.

(** A later instant has a later broken-down time. *)
Lemma offtime_monotone t1 t2 :
  t1 <= t2 -> stamp_le (offtime t1) (offtime t2).
Proof.
  intros Hle. unfold offtime, stamp_le.
  pose proof (Z.div_mod t1 86400 ltac:(lia)) as E1.
  pose proof (Z.div_mod t2 86400 ltac:(lia)) as E2.
  pose proof (Z.mod_pos_bound t1 86400 ltac:(lia)) as B1.
  pose proof (Z.mod_pos_bound t2 86400 ltac:(lia)) as B2.
  destruct (decide (t1 / 86400 = t2 / 86400)) as [Heq|Hne].
  - rewrite Heq. destruct (civil_from_days (t2 / 86400)) as [[y m] d].
    cbn [tm_sec tm_min tm_hour tm_mday tm_mon tm_year].
    assert (Hrem : t1 mod 86400 <= t2 mod 86400) by lia.
    Z.div_mod_to_equations. lia.
  - pose proof (civil_from_days_increasing (t1 / 86400) (t2 / 86400)
                  ltac:(lia)) as Hd.
    destruct (civil_from_days (t1 / 86400)) as [[y1 m1] d1].
    destruct (civil_from_days (t2 / 86400)) as [[y2 m2] d2].
    cbn [tm_sec tm_min tm_hour tm_mday tm_mon tm_year].
    unfold date_lt in Hd. lia.
Qed.

(** The year of an instant from 1000-01-01 to 9999-12-31 has four digits. *)
Lemma offtime_year t :
  four_digit_year t -> 1000 <= 1900 + tm_year (offtime t) <= 9999.
Proof.
  unfold four_digit_year. intros H.
  pose proof (offtime_monotone (-30610224000) t ltac:(lia)) as Hlo.
  pose proof (offtime_monotone t 253402300799 ltac:(lia)) as Hhi.
  change (offtime (-30610224000))
    with {| tm_sec := 0; tm_min := 0; tm_hour := 0; tm_mday := 1;
            tm_mon := 0; tm_year := -900 |} in Hlo.
  change (offtime 253402300799)
    with {| tm_sec := 59; tm_min := 59; tm_hour := 23; tm_mday := 31;
            tm_mon := 11; tm_year := 8099 |} in Hhi.
  unfold stamp_le in *. cbn [tm_year] in *. lia.
Qed.

End CalendarFacts.

(** ** The text of a time stamp *)

Section StampFacts.
Import Clock Order.

Lemma digit_char_compare a b :
  0 <= a <= 9 -> 0 <= b <= 9 ->
  Ascii.compare (digit_char a) (digit_char b) = (a ?= b).
Proof.
  intros Ha Hb. unfold Ascii.compare, digit_char.
  destruct (Z.ltb_spec a 10); [|lia]. destruct (Z.ltb_spec b 10); [|lia].
  rewrite !N_ascii_embedding by lia.
  rewrite Z2N.inj_compare by lia. apply Z.add_compare_mono_l.
Qed.

Lemma compare_two_digits a b s t :
  0 <= a <= 99 -> 0 <= b <= 99 ->
  String.compare (two_digits a s) (two_digits b t)
  = match a ?= b with Eq => String.compare s t | c => c end.
Proof.
  intros Ha Hb. unfold two_digits. cbn [String.compare].
  rewrite !digit_char_compare by (Z.div_mod_to_equations; lia).
  destruct (Z.compare_spec (a / 10) (b / 10));
    destruct (Z.compare_spec (a mod 10) (b mod 10));
    destruct (Z.compare_spec a b);
    try reflexivity; exfalso; Z.div_mod_to_equations; lia.
Qed.

Lemma compare_same_char c s t :
  String.compare (String c s) (String c t) = String.compare s t.
Proof.
  cbn [String.compare]. unfold Ascii.compare. rewrite N.compare_refl.
  reflexivity.
Qed.

Lemma print_padded_two_digits v :
  0 <= v <= 99 ->
  print_padded 2 v = [digit_char (v / 10); digit_char (v mod 10)].
Proof.
  intros Hv. unfold print_padded, print_int, print_dec.
  destruct (Z.ltb_spec v 0); [lia|].
  cbn [digits]. destruct (Z.eqb_spec (v / 10) 0) as [E|E].
  - rewrite E. reflexivity.
  - destruct (Z.eqb_spec (v / 10 / 10) 0) as [E'|E'].
    + rewrite Z.mod_small by (Z.div_mod_to_equations; lia). reflexivity.
    + exfalso. Z.div_mod_to_equations. lia.
Qed.

Lemma print_int_four_digits v :
  1000 <= v <= 9999 ->
  print_int v = [digit_char (v / 100 / 10); digit_char (v / 100 mod 10);
                 digit_char (v mod 100 / 10); digit_char (v mod 100 mod 10)].
Proof.
  intros Hv. unfold print_int, print_dec.
  destruct (Z.ltb_spec v 0); [lia|].
  cbn [digits].
  destruct (Z.eqb_spec (v / 10) 0); [exfalso; Z.div_mod_to_equations; lia|].
  destruct (Z.eqb_spec (v / 10 / 10) 0);
    [exfalso; Z.div_mod_to_equations; lia|].
  destruct (Z.eqb_spec (v / 10 / 10 / 10) 0);
    [exfalso; Z.div_mod_to_equations; lia|].
  destruct (Z.eqb_spec (v / 10 / 10 / 10 / 10) 0);
    [|exfalso; Z.div_mod_to_equations; lia].
  repeat match goal with
         | |- _ :: _ = _ :: _ => f_equal
         | |- digit_char _ = digit_char _ => f_equal
         end; Z.div_mod_to_equations; lia.
Qed.

(** Sums that fit an [int] are not changed by its arithmetic. *)
Lemma wrap_int_small x : INT_MIN <= x <= INT_MAX -> wrap_int x = x.
Proof.
  unfold INT_MIN, INT_MAX, wrap_int. intros H. rewrite Z.mod_small; lia.
Qed.

(** Both spellings of the format give the same characters: the year, the
    month, the day, the hour, the minute and the second, with their
    separators and the letter Z. *)
Lemma expand_fields ts :
  expand "%FT%TZ" ts
  = print_int (wrap_int (1900 + tm_year ts)) ++ "-"%char ::
    print_padded 2 (wrap_int (tm_mon ts + 1)) ++ "-"%char ::
    print_padded 2 (tm_mday ts) ++ "T"%char ::
    print_padded 2 (tm_hour ts) ++ ":"%char ::
    print_padded 2 (tm_min ts) ++ ":"%char ::
    print_padded 2 (tm_sec ts) ++ ["Z"%char] /\
  expand "%Y-%m-%dT%H:%M:%SZ" ts = expand "%FT%TZ" ts.
Proof.
  destruct ts as [s m h D M Y].
  split; cbv - [print_int print_padded wrap_int Z.add app];
    repeat (rewrite <- app_assoc || rewrite <- app_comm_cons); reflexivity.
Qed.

(** The text always fits the 256-byte arrays. *)
Lemma length_expand ts : (length (expand "%FT%TZ" ts) < 256)%nat.
Proof.
  rewrite (proj1 (expand_fields ts)).
  repeat (rewrite length_app || rewrite length_cons).
  pose proof (length_print_int (wrap_int (1900 + tm_year ts))).
  pose proof (length_print_padded (wrap_int (tm_mon ts + 1))).
  pose proof (length_print_padded (tm_mday ts)).
  pose proof (length_print_padded (tm_hour ts)).
  pose proof (length_print_padded (tm_min ts)).
  pose proof (length_print_padded (tm_sec ts)).
  simpl length. lia.
Qed.

Lemma strftime_fits s ts :
  snd (strftime s 256 "%FT%TZ" ts)
  = string_of_list_ascii (expand "%Y-%m-%dT%H:%M:%SZ" ts).
Proof.
  unfold strftime. rewrite (proj2 (expand_fields ts)).
  destruct (Nat.ltb_spec (length (expand "%FT%TZ" ts)) 256); [reflexivity|].
  pose proof (length_expand ts). lia.
Qed.

(** The text of a broken-down time with fields in range and a four-digit
    year. *)
Lemma expand_iso_text ts :
  1000 <= 1900 + tm_year ts <= 9999 ->
  0 <= tm_mon ts <= 11 -> 1 <= tm_mday ts <= 31 ->
  0 <= tm_hour ts <= 23 -> 0 <= tm_min ts <= 59 -> 0 <= tm_sec ts <= 59 ->
  string_of_list_ascii (expand "%FT%TZ" ts)
  = iso_text (1900 + tm_year ts) (tm_mon ts + 1) (tm_mday ts)
             (tm_hour ts) (tm_min ts) (tm_sec ts).
Proof.
  intros HY HM HD Hh Hm Hs. rewrite (proj1 (expand_fields ts)).
  rewrite !wrap_int_small by (unfold INT_MIN, INT_MAX; lia).
  rewrite print_int_four_digits by lia.
  rewrite !print_padded_two_digits by lia. reflexivity.
Qed.

(** Texts of time stamps compare as the time stamps do. *)
Lemma iso_text_le Y1 M1 D1 h1 m1 s1 Y2 M2 D2 h2 m2 s2 :
  0 <= Y1 <= 9999 -> 0 <= Y2 <= 9999 ->
  0 <= M1 <= 99 -> 0 <= M2 <= 99 -> 0 <= D1 <= 99 -> 0 <= D2 <= 99 ->
  0 <= h1 <= 99 -> 0 <= h2 <= 99 -> 0 <= m1 <= 99 -> 0 <= m2 <= 99 ->
  0 <= s1 <= 99 -> 0 <= s2 <= 99 ->
  (Y1 < Y2 \/ (Y1 = Y2 /\ (M1 < M2 \/ (M1 = M2 /\ (D1 < D2 \/ (D1 = D2 /\
   (h1 < h2 \/ (h1 = h2 /\ (m1 < m2 \/ (m1 = m2 /\ s1 <= s2)))))))))) ->
  string_le (iso_text Y1 M1 D1 h1 m1 s1) (iso_text Y2 M2 D2 h2 m2 s2).
Proof.
  intros. unfold string_le, String.leb, iso_text.
  repeat first
    [ rewrite compare_two_digits by (Z.div_mod_to_equations; lia)
    | rewrite compare_same_char ].
  destruct (Z.compare_spec (Y1 / 100) (Y2 / 100));
    [|reflexivity|exfalso; Z.div_mod_to_equations; lia].
  destruct (Z.compare_spec (Y1 mod 100) (Y2 mod 100));
    [|reflexivity|exfalso; Z.div_mod_to_equations; lia].
  assert (Y1 = Y2) by (Z.div_mod_to_equations; lia).
  destruct (Z.compare_spec M1 M2); [|reflexivity|exfalso; lia].
  destruct (Z.compare_spec D1 D2); [|reflexivity|exfalso; lia].
  destruct (Z.compare_spec h1 h2); [|reflexivity|exfalso; lia].
  destruct (Z.compare_spec m1 m2); [|reflexivity|exfalso; lia].
  destruct (Z.compare_spec s1 s2); [reflexivity|reflexivity|exfalso; lia].
Qed.

End StampFacts.

(** ** The clock accessor *)

Section ClockClaims.
Import Clock Order.

Lemma wrap64_small x : - 2 ^ 63 <= x < 2 ^ 63 -> wrap64 x = x.
Proof. intros H. unfold wrap64. rewrite Z.mod_small; lia. Qed.

(** [localtime] succeeds on an instant whose wall-clock year has four
    digits. *)
Lemma localtime_four_digit_year h t :
  four_digit_year (t + host_utc_offset h t) ->
  localtime h t = Some (offtime (t + host_utc_offset h t)).
Proof.
  intros H. unfold localtime.
  pose proof (offtime_year _ H) as HY. unfold INT_MIN, INT_MAX.
  destruct (Z.leb_spec (-2147483648) (tm_year (offtime (t + host_utc_offset h t))));
    [|lia].
  destruct (Z.leb_spec (tm_year (offtime (t + host_utc_offset h t))) 2147483647);
    [reflexivity|lia].
Qed.

(** The texts of two instants with four-digit years compare as the
    instants do. *)
Lemma expand_monotone t1 t2 :
  four_digit_year t1 -> four_digit_year t2 -> t1 <= t2 ->
  string_le (string_of_list_ascii (expand "%FT%TZ" (offtime t1)))
            (string_of_list_ascii (expand "%FT%TZ" (offtime t2))).
Proof.
  intros H1 H2 Hle.
  pose proof (offtime_year _ H1) as Y1. pose proof (offtime_year _ H2) as Y2.
  pose proof (offtime_fields t1) as (S1 & M1 & Hr1 & D1 & Mo1).
  pose proof (offtime_fields t2) as (S2 & M2 & Hr2 & D2 & Mo2).
  pose proof (offtime_monotone t1 t2 Hle) as Hs. unfold stamp_le in Hs.
  rewrite !expand_iso_text by lia.
  apply iso_text_le; lia.
Qed.

(** With one offset from UTC in force throughout and an uptime that is not
    negative, the wall clock at boot is not ahead of the wall clock now, and
    the two texts are in order. *)
Lemma fixed_zone_texts_ordered now up off :
  0 <= up ->
  four_digit_year (now - up + off) ->
  four_digit_year (now + off) ->
  string_le
    (string_of_list_ascii (expand "%FT%TZ" (offtime (now - up + off))))
    (string_of_list_ascii (expand "%FT%TZ" (offtime (now + off)))).
Proof. intros Hup Hb Hn. apply expand_monotone; [assumption..|lia]. Qed.

(** C5, as the claim has it: where daylight saving ended between boot and
    now (the offset from UTC fell from two hours to one at 1698541200, now is
    a quarter of an hour later and the host has been up for half an hour) the
    text for the boot time is the greater one; so it is when the year of now
    has five digits and that of boot has four. *)
Lemma getClockInfo_order_counterexample :
  getClockInfo {| host_time := Some 1698542100;
                  host_utc_offset := zone_fall_back 1698541200 7200 3600;
                  host_sysinfo := Some 1800 |} (EmptyString, EmptyString)
  = Returned {| BootDatetime := "2023-10-29T02:45:00Z";
                CurrentDatetime := "2023-10-29T02:15:00Z" |} /\
  String.leb "2023-10-29T02:45:00Z" "2023-10-29T02:15:00Z" = false /\
  getClockInfo {| host_time := Some 253402300800;
                  host_utc_offset := fun _ => 0;
                  host_sysinfo := Some 1 |} (EmptyString, EmptyString)
  = Returned {| BootDatetime := "9999-12-31T23:59:59Z";
                CurrentDatetime := "10000-01-01T00:00:00Z" |} /\
  String.leb "9999-12-31T23:59:59Z" "10000-01-01T00:00:00Z" = false.
Proof. repeat split; vm_compute; reflexivity. Qed.

(** C5, amended. When [time] and [sysinfo] succeed, the subtraction of the
    uptime does not overflow, the wall-clock readings of boot and of now (the
    instant plus the offset from UTC in force at it) have four-digit years,
    and the reading of boot is not after the reading of now, the call returns
    and the text for now is not below the text for boot. *)
Theorem getClockInfo_ordered h stack now up :
  host_time h = Some now ->
  host_sysinfo h = Some up ->
  - 2 ^ 63 <= now - up < 2 ^ 63 ->
  four_digit_year (now - up + host_utc_offset h (now - up)) ->
  four_digit_year (now + host_utc_offset h now) ->
  now - up + host_utc_offset h (now - up) <= now + host_utc_offset h now ->
  exists ci,
    getClockInfo h stack = Returned ci /\
    string_le (BootDatetime ci) (CurrentDatetime ci).
Proof.
  intros Ht Hu Hw Hb Hn Hle. unfold getClockInfo, time.
  rewrite Ht, Hu, (wrap64_small _ Hw).
  rewrite (localtime_four_digit_year h now Hn).
  rewrite (localtime_four_digit_year h (now - up) Hb).
  eexists. split; [reflexivity|]. cbn [BootDatetime CurrentDatetime].
  rewrite !strftime_fits, !(proj2 (expand_fields _)).
  apply expand_monotone; assumption.
Qed.

Lemma getClockInfo_ordered_witness :
  exists ci,
    getClockInfo {| host_time := Some 1698541200;
                    host_utc_offset := fun _ => 3600;
                    host_sysinfo := Some 86400 |} (EmptyString, EmptyString)
    = Returned ci /\
    string_le (BootDatetime ci) (CurrentDatetime ci).
Proof.
  apply (getClockInfo_ordered
    {| host_time := Some 1698541200; host_utc_offset := fun _ => 3600;
       host_sysinfo := Some 86400 |} (EmptyString, EmptyString) 1698541200 86400);
    try reflexivity; unfold four_digit_year; simpl; lia.
Defined.




End ClockClaims.

(** * Further properties of the code *)

(** ** C strings *)

Section CStrings.
Implicit Types (m : region) (l : list ascii) (s : string).

Lemma c_str_length m : (String.length (c_str m) <= length m)%nat.
Proof.
  induction m as [|c m IH]; simpl; [lia|].
  destruct (Ascii.eqb c NUL); simpl; lia.
Qed.

(** A region that holds a terminator holds a shorter string. *)
Lemma c_str_length_terminated m :
  NUL ∈ m -> (String.length (c_str m) < length m)%nat.
Proof.
  induction m as [|c m IH]; intros H; [by apply elem_of_nil in H|].
  simpl. destruct (Ascii.eqb_spec c NUL) as [->|Hne]; simpl; [lia|].
  apply elem_of_cons in H as [H|H]; [congruence|].
  specialize (IH H). lia.
Qed.

(** The characters of a C string are not terminators. *)
Lemma c_str_chars m : Forall (fun c => c <> NUL) (list_ascii_of_string (c_str m)).
Proof.
  induction m as [|c m IH]; simpl; [constructor|].
  destruct (Ascii.eqb_spec c NUL) as [->|Hne]; simpl; [constructor|].
  constructor; assumption.
Qed.

(** Characters without a terminator, then a terminator: the string read back
    is made of these characters. *)
Lemma c_str_app_nul l m :
  Forall (fun c => c <> NUL) l ->
  c_str (l ++ NUL :: m) = string_of_list_ascii l.
Proof.
  induction 1 as [|c l Hc Hl IH]; simpl; [reflexivity|].
  destruct (Ascii.eqb_spec c NUL) as [->|Hne]; [contradiction|].
  f_equal. exact IH.
Qed.

Lemma c_chars_not_nul s : Forall (fun c => c <> NUL) (c_chars s).
Proof. apply c_str_chars. Qed.

Lemma c_chars_clean s :
  c_str (list_ascii_of_string s) = s -> c_chars s = list_ascii_of_string s.
Proof. unfold c_chars. intros ->. reflexivity. Qed.

Lemma string_length_of_list l :
  String.length (string_of_list_ascii l) = length l.
Proof. induction l as [|c l IH]; simpl; congruence. Qed.

End CStrings.

(** ** Digits and dotted-decimal text *)

Section DottedDecimal.

Lemma digit_char_not_nul d : 0 <= d < 10 -> digit_char d <> NUL.
Proof.
  intros Hd. unfold digit_char. destruct (Z.ltb_spec d 10); [|lia].
  intros E. apply (f_equal N_of_ascii) in E.
  rewrite N_ascii_embedding in E by lia.
  change (N_of_ascii NUL) with 0%N in E. lia.
Qed.

Lemma digits_not_nul fuel : forall n acc,
  Forall (fun c => c <> NUL) acc ->
  Forall (fun c => c <> NUL) (digits 10 fuel n acc).
Proof.
  induction fuel as [|f IH]; intros n acc Hacc; simpl; [assumption|].
  assert (Forall (fun c => c <> NUL) (digit_char (n mod 10) :: acc)).
  { constructor; [|assumption]. apply digit_char_not_nul.
    apply Z.mod_pos_bound. lia. }
  destruct (n / 10 =? 0); [assumption|]. apply IH. assumption.
Qed.

Lemma octet_range src i : 0 <= octet src i <= 255.
Proof.
  unfold octet. pose proof (Byte.to_N_bounded (nth i src x00)). lia.
Qed.

(** An octet prints as one to three digits. *)
Lemma print_dec_octet v :
  0 <= v <= 255 ->
  (1 <= length (print_dec v) <= 3)%nat /\
  Forall (fun c => c <> NUL) (print_dec v).
Proof.
  intros Hv. split; [|apply digits_not_nul; constructor].
  unfold print_dec. cbn [digits].
  destruct (Z.eqb_spec (v / 10) 0); [simpl; lia|].
  destruct (Z.eqb_spec (v / 10 / 10) 0); [simpl; lia|].
  destruct (Z.eqb_spec (v / 10 / 10 / 10) 0); [simpl; lia|].
  exfalso. Z.div_mod_to_equations. lia.
Qed.

(** The text of an IPv4 address has 7 to 15 characters, none a terminator. *)
Lemma inet_ntop4_text_shape src :
  (7 <= length (inet_ntop4_text src) <= 15)%nat /\
  Forall (fun c => c <> NUL) (inet_ntop4_text src).
Proof.
  unfold inet_ntop4_text.
  destruct (print_dec_octet _ (octet_range src 0)) as [L0 F0].
  destruct (print_dec_octet _ (octet_range src 1)) as [L1 F1].
  destruct (print_dec_octet _ (octet_range src 2)) as [L2 F2].
  destruct (print_dec_octet _ (octet_range src 3)) as [L3 F3].
  split.
  - repeat (rewrite length_app || rewrite length_cons). lia.
  - repeat first [apply Forall_app; split | apply Forall_cons; split];
      try assumption; cbv beta; discriminate.
Qed.

End DottedDecimal.

(** ** More on the structured build *)

Section StructuredExtras.
Import Structured.
Implicit Types (a : system_ip_address_t) (buffer : region) (n : nat).

(** X1. Structured build: the result is 0 exactly when the family is AF_INET
    and the capacity exceeds the length of the dotted-decimal text; every
    other call, every IPv6 one among them, gives a result other than 0. *)
Theorem structured_to_str_success a buffer n :
  fst (system_ip_address_to_str a buffer n) = 0 <->
  family a = AF_INET /\ (length (inet_ntop4_text (v4 a)) < n)%nat.
Proof.
  rewrite to_str_unfold. split.
  - destruct (Z.eqb_spec (family a) AF_INET) as [Hf|Hf].
    + unfold inet_ntop4.
      destruct (Nat.leb_spec n (length (inet_ntop4_text (v4 a))));
        cbn [fst]; [discriminate|auto].
    + destruct (family a =? AF_INET6); [|discriminate].
      destruct (inet_ntop6 _ _ _); discriminate.
  - intros [Hf Hn]. rewrite Hf.
    change (AF_INET =? AF_INET) with true. cbv iota. unfold inet_ntop4.
    destruct (Nat.leb_spec n (length (inet_ntop4_text (v4 a)))); [lia|].
    reflexivity.
Qed.

(** X2. Structured build: every IPv4 value fits a buffer of 16 bytes or
    more: the result is 0, the buffer holds the dotted-decimal text (7 to 15
    characters) and a terminator, the bytes after them are untouched, and the
    string read back from the buffer is that text. *)
Theorem structured_to_str_inet_fits a buffer n :
  family a = AF_INET ->
  (16 <= n)%nat -> (n <= length buffer)%nat ->
  system_ip_address_to_str a buffer n
    = (0, inet_ntop4_text (v4 a) ++ NUL
            :: drop (S (length (inet_ntop4_text (v4 a)))) buffer) /\
  c_str (snd (system_ip_address_to_str a buffer n))
    = string_of_list_ascii (inet_ntop4_text (v4 a)) /\
  (7 <= length (inet_ntop4_text (v4 a)) <= 15)%nat.
Proof.
  intros Hf Hn Hcap.
  destruct (inet_ntop4_text_shape (v4 a)) as [Hlen Hchars].
  assert (E : system_ip_address_to_str a buffer n
    = (0, inet_ntop4_text (v4 a) ++ NUL
            :: drop (S (length (inet_ntop4_text (v4 a)))) buffer)).
  { rewrite to_str_unfold, Hf.
    change (AF_INET =? AF_INET) with true. cbv iota. unfold inet_ntop4.
    destruct (Nat.leb_spec n (length (inet_ntop4_text (v4 a)))); [lia|].
    unfold strcpy. rewrite store_fits by (rewrite length_app; simpl; lia).
    rewrite length_app, <- app_assoc. simpl.
    replace (length (inet_ntop4_text (v4 a)) + 1)%nat
      with (S (length (inet_ntop4_text (v4 a)))) by lia.
    reflexivity. }
  split; [exact E|]. split; [|exact Hlen].
  rewrite E. cbn [snd]. apply c_str_app_nul. exact Hchars.
Qed.

Lemma structured_to_str_inet_fits_witness :
  system_ip_address_to_str
    {| value := [xc0; xa8; x01; xfe] ++ replicate 12 x00; family := AF_INET |}
    (replicate 16 "x"%char) 16
  = (0, list_ascii_of_string "192.168.1.254" ++ NUL :: replicate 2 "x"%char) /\
  c_str (snd (system_ip_address_to_str
    {| value := [xc0; xa8; x01; xfe] ++ replicate 12 x00; family := AF_INET |}
    (replicate 16 "x"%char) 16)) = "192.168.1.254"%string /\
  (7 <= 13 <= 15)%nat.
Proof.
  apply (structured_to_str_inet_fits
    {| value := [xc0; xa8; x01; xfe] ++ replicate 12 x00; family := AF_INET |}
    (replicate 16 "x"%char) 16); [reflexivity | lia | simpl; lia].
Defined.

(** X4. Structured build: a call that gives -1 for a family other than
    AF_INET6 has not touched the buffer. *)
Theorem structured_to_str_failure_frame a buffer n :
  family a <> AF_INET6 ->
  fst (system_ip_address_to_str a buffer n) = -1 ->
  snd (system_ip_address_to_str a buffer n) = buffer.
Proof.
  intros H6. rewrite to_str_unfold.
  destruct (family a =? AF_INET).
  - unfold inet_ntop4. destruct (n <=? _)%nat; cbn [fst snd];
      [reflexivity|discriminate].
  - destruct (Z.eqb_spec (family a) AF_INET6); [contradiction|reflexivity].
Qed.

Lemma structured_to_str_failure_frame_witness :
  snd (system_ip_address_to_str
    {| value := [x7f; x00; x00; x01] ++ replicate 12 x00; family := AF_INET |}
    (replicate 16 "x"%char) 9) = replicate 16 "x"%char.
Proof.
  apply (structured_to_str_failure_frame
    {| value := [x7f; x00; x00; x01] ++ replicate 12 x00; family := AF_INET |}
    (replicate 16 "x"%char) 9);
    [unfold AF_INET, AF_INET6; simpl; lia | reflexivity].
Defined.

End StructuredExtras.

(** ** More on the plain-text build *)

Section PlainExtras.
Import Plain.
Implicit Types (a : system_ip_address_t) (buffer : region) (n : nat) (m : memory).

Lemma length_list_ascii_of_string (s : string) :
  length (list_ascii_of_string s) = String.length s.
Proof.
  rewrite <- (string_of_list_ascii_of_string s) at 2.
  symmetry. apply string_length_of_list.
Qed.

(** What the call leaves in a buffer with room for at least one byte: the
    first [n - 1] characters of the text, a terminator, the old bytes. *)
Lemma plain_to_str_buffer m a text buffer n r buffer' :
  text_at m (value a) = Some text ->
  (0 < n <= length buffer)%nat ->
  system_ip_address_to_str m a buffer n = Some (r, buffer') ->
  buffer' = take (n - 1) (c_chars text) ++ NUL
            :: drop (S (length (take (n - 1) (c_chars text)))) buffer.
Proof.
  intros Ht Hn. unfold system_ip_address_to_str, snprintf_s. rewrite Ht.
  destruct n as [|k]; [lia|]. intros [= _ <-].
  replace (S k - 1)%nat with k by lia.
  rewrite store_fits by (rewrite length_app, length_take; simpl; lia).
  rewrite length_app, <- app_assoc. simpl.
  replace (length (take k (c_chars text)) + 1)%nat
    with (S (length (take k (c_chars text)))) by lia.
  reflexivity.
Qed.

(** X5. Plain-text build: the string read back from the buffer after any
    call with a capacity from 1 up to the extent of the buffer is the text cut
    to capacity - 1 characters, so it is terminated within the capacity. *)
Theorem plain_to_str_reads_back m a text buffer n r buffer' :
  text_at m (value a) = Some text ->
  (0 < n <= length buffer)%nat ->
  system_ip_address_to_str m a buffer n = Some (r, buffer') ->
  list_ascii_of_string (c_str buffer') = take (n - 1) (c_chars text) /\
  (String.length (c_str buffer') < n)%nat.
Proof.
  intros Ht Hn Hcall.
  rewrite (plain_to_str_buffer _ _ _ _ _ _ _ Ht Hn Hcall).
  rewrite c_str_app_nul by (apply Forall_take, c_chars_not_nul).
  rewrite list_ascii_of_string_of_list_ascii, string_length_of_list.
  split; [reflexivity|]. rewrite length_take. lia.
Qed.

Lemma plain_to_str_reads_back_witness :
  list_ascii_of_string (c_str (list_ascii_of_string "10." ++ NUL :: replicate 8 "x"%char))
    = take (4 - 1) (c_chars "10.0.0.1") /\
  (String.length (c_str (list_ascii_of_string "10." ++ NUL :: replicate 8 "x"%char)) < 4)%nat.
Proof.
  apply (plain_to_str_reads_back
    {| blocks := {[ 4096 := "10.0.0.1"%string ]}; freed := [] |}
    {| family := AF_INET; value := 4096 |} "10.0.0.1"
    (replicate 12 "x"%char) 4 0); [reflexivity | simpl; lia | reflexivity].
Defined.

(** X6. Plain-text build: a value that owns a text with at least one
    character and no terminator inside, and a capacity larger than the length
    of the text, give result 0; the buffer then holds the text and its
    terminator, and the string read back from it is the text. *)
Theorem plain_to_str_round_trip m a s buffer n :
  value a <> NULL ->
  blocks m !! value a = Some s ->
  c_str (list_ascii_of_string s) = s ->
  (0 < String.length s)%nat ->
  Z.of_nat (String.length s) <= INT_MAX ->
  (String.length s < n)%nat -> (n <= length buffer)%nat ->
  system_ip_address_to_str m a buffer n
    = Some (0, list_ascii_of_string s ++ NUL :: drop (S (String.length s)) buffer) /\
  c_str (list_ascii_of_string s ++ NUL :: drop (S (String.length s)) buffer) = s.
Proof.
  intros Hp Hs Hclean Hpos Hint Hn Hcap.
  pose proof (text_at_live _ _ _ Hp Hs) as Ht.
  pose proof (length_list_ascii_of_string s) as Hlen.
  assert (Hchars : c_chars s = list_ascii_of_string s)
    by (apply c_chars_clean; exact Hclean).
  split.
  - destruct (system_ip_address_to_str m a buffer n) as [[r b]|] eqn:E.
    2:{ unfold system_ip_address_to_str in E. rewrite Ht in E.
        destruct (snprintf_s _ _ _). discriminate. }
    assert (Hn' : (0 < n <= length buffer)%nat) by lia.
    rewrite (plain_to_str_buffer _ _ _ _ _ _ _ Ht Hn' E).
    rewrite Hchars, take_ge by lia. rewrite Hlen.
    unfold system_ip_address_to_str, snprintf_s in E.
    rewrite Ht, Hchars, Hlen in E.
    destruct (Z.leb_spec (Z.of_nat (String.length s)) INT_MAX); [|lia].
    destruct (Z.gtb_spec (Z.of_nat (String.length s)) 0); [|lia].
    injection E as <- _. reflexivity.
  - rewrite c_str_app_nul.
    + apply string_of_list_ascii_of_string.
    + rewrite <- Hchars. apply c_chars_not_nul.
Qed.

Lemma plain_to_str_round_trip_witness :
  system_ip_address_to_str
    {| blocks := {[ 4096 := "fe80::1"%string ]}; freed := [] |}
    {| family := AF_INET6; value := 4096 |} (replicate 12 "x"%char) 10
    = Some (0, list_ascii_of_string "fe80::1" ++ NUL :: replicate 4 "x"%char) /\
  c_str (list_ascii_of_string "fe80::1" ++ NUL :: replicate 4 "x"%char)
    = "fe80::1"%string.
Proof.
  apply (plain_to_str_round_trip
    {| blocks := {[ 4096 := "fe80::1"%string ]}; freed := [] |}
    {| family := AF_INET6; value := 4096 |} "fe80::1"
    (replicate 12 "x"%char) 10);
    [unfold NULL; simpl; lia | reflexivity | reflexivity | simpl; lia
    | unfold INT_MAX; simpl; lia | simpl; lia | simpl; lia].
Defined.

(** X8. Plain-text build: the result is 0 exactly when the pointer can be
    read and the text it leads to has at least one character (and no more
    than an [int] can count); neither the buffer nor the capacity has a part
    in it. *)
Theorem plain_to_str_success m a buffer n :
  (exists buffer', system_ip_address_to_str m a buffer n = Some (0, buffer')) <->
  (exists text, text_at m (value a) = Some text /\
                0 < Z.of_nat (length (c_chars text)) <= INT_MAX).
Proof.
  unfold system_ip_address_to_str, snprintf_s.
  destruct (text_at m (value a)) as [text|].
  - cbv beta iota zeta. set (k := Z.of_nat (length (c_chars text))).
    assert (Hcode :
      (if (if k <=? INT_MAX then k else -1) >? 0 then 0 else -1) = 0
      <-> 0 < k <= INT_MAX).
    { unfold INT_MAX. destruct (Z.leb_spec k 2147483647).
      - destruct (Z.gtb_spec k 0); lia.
      - change (-1 >? 0) with false. cbv iota. lia. }
    split.
    + intros [b Hb]. injection Hb as Hc _.
      exists text. split; [reflexivity|]. apply Hcode, Hc.
    + intros (t & [= <-] & Hk). apply Hcode in Hk. rewrite Hk.
      eexists. reflexivity.
  - split; [intros [b [=]]|intros (t & [=] & _)].
Qed.

(** X9. Plain-text build: release goes through exactly for the values that
    are null or own a live block; for any other pointer the call to [free]
    is a fault. *)
Theorem plain_free_defined m a :
  is_Some (system_ip_address_free a m) <-> owned m a.
Proof.
  unfold system_ip_address_free, owned, free.
  destruct (Z.eqb_spec (value a) NULL) as [E|E]; simpl.
  - split; [intros _; left; exact E|intros _; eexists; reflexivity].
  - destruct (blocks m !! value a) as [s|] eqn:Hs.
    + split; [intros _; right; eexists; reflexivity|intros _; eexists; reflexivity].
    + split; [intros [x [=]]|intros [H|[x [=]]]; contradiction].
Qed.

(** X10. Plain-text build: after a release that freed a block, releasing a
    copy of the value that still holds the old pointer is a fault (a second
    [free] of the same block). *)
Theorem plain_free_stale_copy m a a1 m1 :
  value a <> NULL ->
  system_ip_address_free a m = Some (a1, m1) ->
  system_ip_address_free a m1 = None.
Proof.
  intros Hp. unfold system_ip_address_free, free.
  destruct (Z.eqb_spec (value a) NULL) as [E|E]; [contradiction|]. simpl.
  destruct (blocks m !! value a) as [s|]; [|discriminate].
  intros [= _ <-]. simpl. rewrite lookup_delete_eq. reflexivity.
Qed.

Lemma plain_free_stale_copy_witness :
  system_ip_address_free {| family := AF_INET; value := 4096 |}
    {| blocks := delete 4096 {[ 4096 := "10.0.0.1"%string ]}; freed := [4096] |}
  = None.
Proof.
  apply (plain_free_stale_copy
    {| blocks := {[ 4096 := "10.0.0.1"%string ]}; freed := [] |}
    {| family := AF_INET; value := 4096 |}
    {| family := 0; value := NULL |}
    {| blocks := delete 4096 {[ 4096 := "10.0.0.1"%string ]}; freed := [4096] |});
    [unfold NULL; simpl; lia | reflexivity].
Defined.

(** X11. Plain-text build: releasing one value leaves every other block as
    it was, so a value that holds another pointer converts to the same result
    and the same buffer as before the release. *)
Theorem plain_free_frame m a a1 m1 a' buffer n :
  system_ip_address_free a m = Some (a1, m1) ->
  value a' <> value a ->
  blocks m1 !! value a' = blocks m !! value a' /\
  system_ip_address_to_str m1 a' buffer n
  = system_ip_address_to_str m a' buffer n.
Proof.
  intros Hfree Hne.
  assert (Hb : blocks m1 !! value a' = blocks m !! value a').
  { unfold system_ip_address_free, free in Hfree.
    destruct (value a =? NULL); simpl in Hfree.
    - injection Hfree as _ <-. reflexivity.
    - destruct (blocks m !! value a); [|discriminate].
      injection Hfree as _ <-. simpl. apply lookup_delete_ne. congruence. }
  split; [exact Hb|].
  unfold system_ip_address_to_str, text_at. rewrite Hb. reflexivity.
Qed.

Lemma plain_free_frame_witness :
  blocks {| blocks := delete 4096 {[ 4096 := "10.0.0.1"%string; 8192 := "::1"%string ]};
            freed := [4096] |} !! value {| family := AF_INET6; value := 8192 |}
  = blocks {| blocks := {[ 4096 := "10.0.0.1"%string; 8192 := "::1"%string ]};
              freed := [] |} !! value {| family := AF_INET6; value := 8192 |} /\
  system_ip_address_to_str
    {| blocks := delete 4096 {[ 4096 := "10.0.0.1"%string; 8192 := "::1"%string ]};
       freed := [4096] |}
    {| family := AF_INET6; value := 8192 |} (replicate 8 "x"%char) 8
  = system_ip_address_to_str
    {| blocks := {[ 4096 := "10.0.0.1"%string; 8192 := "::1"%string ]}; freed := [] |}
    {| family := AF_INET6; value := 8192 |} (replicate 8 "x"%char) 8.
Proof.
  apply (plain_free_frame
    {| blocks := {[ 4096 := "10.0.0.1"%string; 8192 := "::1"%string ]}; freed := [] |}
    {| family := AF_INET; value := 4096 |}
    {| family := 0; value := NULL |}
    {| blocks := delete 4096 {[ 4096 := "10.0.0.1"%string; 8192 := "::1"%string ]};
       freed := [4096] |}
    {| family := AF_INET6; value := 8192 |} (replicate 8 "x"%char) 8);
    [reflexivity | simpl; lia].
Defined.

End PlainExtras.

(** ** More on the clock accessor *)

Section ClockExtras.
Import Clock Order Stamp.

(** What a call that returns has computed. *)
Lemma getClockInfo_returned h stack ci :
  getClockInfo h stack = Returned ci ->
  exists ts_now up ts_boot,
    localtime h (time h) = Some ts_now /\
    host_sysinfo h = Some up /\
    localtime h (wrap64 (time h - up)) = Some ts_boot /\
    CurrentDatetime ci = string_of_list_ascii (expand "%FT%TZ" ts_now) /\
    BootDatetime ci = string_of_list_ascii (expand "%FT%TZ" ts_boot).
Proof.
  unfold getClockInfo.
  destruct (localtime h (time h)) as [ts_now|] eqn:E1; [|discriminate].
  destruct (host_sysinfo h) as [up|] eqn:E2; [|discriminate].
  destruct (localtime h (wrap64 (time h - up))) as [ts_boot|] eqn:E3;
    [|discriminate].
  intros [= <-]. exists ts_now, up, ts_boot.
  cbn [BootDatetime CurrentDatetime]. rewrite !strftime_fits.
  rewrite (proj2 (expand_fields ts_now)), (proj2 (expand_fields ts_boot)).
  repeat split; solve [assumption | reflexivity].
Qed.

(** X12. The outcome of a call does not depend on what the two
    uninitialised local arrays hold: the unchecked [strftime] calls always
    fill them, so no stale stack content reaches the result. *)
Theorem getClockInfo_stack_independent h stack1 stack2 :
  getClockInfo h stack1 = getClockInfo h stack2.
Proof.
  unfold getClockInfo.
  destruct (localtime h (time h)) as [ts_now|]; [|reflexivity].
  destruct (host_sysinfo h) as [up|]; [|reflexivity].
  destruct (localtime h (wrap64 (time h - up))) as [ts_boot|]; [|reflexivity].
  rewrite (strftime_fits (fst stack1)), (strftime_fits (fst stack2)).
  rewrite (strftime_fits (snd stack1)), (strftime_fits (snd stack2)).
  reflexivity.
Qed.

(** X13. With an uptime of 0 seconds a call that returns gives the same
    text for the boot time and for the current time. *)
Theorem getClockInfo_zero_uptime h stack ci :
  host_sysinfo h = Some 0 ->
  - 2 ^ 63 <= time h < 2 ^ 63 ->
  getClockInfo h stack = Returned ci ->
  BootDatetime ci = CurrentDatetime ci.
Proof.
  intros Hu Ht Hr.
  destruct (getClockInfo_returned _ _ _ Hr)
    as (ts_now & up & ts_boot & Hn & Hu' & Hb & -> & ->).
  rewrite Hu in Hu'. injection Hu' as <-.
  rewrite Z.sub_0_r, wrap64_small in Hb by exact Ht.
  congruence.
Qed.

Lemma getClockInfo_zero_uptime_witness :
  BootDatetime {| BootDatetime := "2023-10-29T02:00:00Z";
                  CurrentDatetime := "2023-10-29T02:00:00Z" |}
  = CurrentDatetime {| BootDatetime := "2023-10-29T02:00:00Z";
                       CurrentDatetime := "2023-10-29T02:00:00Z" |}.
Proof.
  apply (getClockInfo_zero_uptime
    {| host_time := Some 1698541200; host_utc_offset := fun _ => 3600;
       host_sysinfo := Some 0 |} (EmptyString, EmptyString));
    [reflexivity | cbv [time host_time]; lia | vm_compute; reflexivity].
Defined.





(** A strictly later instant has a strictly later broken-down time. *)
Lemma offtime_increasing t1 t2 :
  t1 < t2 -> stamp_lt (offtime t1) (offtime t2).
Proof.
  intros Hlt. unfold offtime, stamp_lt.
  pose proof (Z.div_mod t1 86400 ltac:(lia)) as E1.
  pose proof (Z.div_mod t2 86400 ltac:(lia)) as E2.
  pose proof (Z.mod_pos_bound t1 86400 ltac:(lia)) as B1.
  pose proof (Z.mod_pos_bound t2 86400 ltac:(lia)) as B2.
  destruct (decide (t1 / 86400 = t2 / 86400)) as [Heq|Hne].
  - rewrite Heq. destruct (civil_from_days (t2 / 86400)) as [[y m] d].
    cbn [tm_sec tm_min tm_hour tm_mday tm_mon tm_year].
    assert (Hrem : t1 mod 86400 < t2 mod 86400) by lia.
    Z.div_mod_to_equations. lia.
  - pose proof (civil_from_days_increasing (t1 / 86400) (t2 / 86400)
                  ltac:(lia)) as Hd.
    destruct (civil_from_days (t1 / 86400)) as [[y1 m1] d1].
    destruct (civil_from_days (t2 / 86400)) as [[y2 m2] d2].
    cbn [tm_sec tm_min tm_hour tm_mday tm_mon tm_year].
    unfold date_lt in Hd. lia.
Qed.

(** Texts of time stamps are strictly ordered as the time stamps are. *)
Lemma iso_text_lt Y1 M1 D1 h1 m1 s1 Y2 M2 D2 h2 m2 s2 :
  0 <= Y1 <= 9999 -> 0 <= Y2 <= 9999 ->
  0 <= M1 <= 99 -> 0 <= M2 <= 99 -> 0 <= D1 <= 99 -> 0 <= D2 <= 99 ->
  0 <= h1 <= 99 -> 0 <= h2 <= 99 -> 0 <= m1 <= 99 -> 0 <= m2 <= 99 ->
  0 <= s1 <= 99 -> 0 <= s2 <= 99 ->
  (Y1 < Y2 \/ (Y1 = Y2 /\ (M1 < M2 \/ (M1 = M2 /\ (D1 < D2 \/ (D1 = D2 /\
   (h1 < h2 \/ (h1 = h2 /\ (m1 < m2 \/ (m1 = m2 /\ s1 < s2)))))))))) ->
  String.compare (iso_text Y1 M1 D1 h1 m1 s1) (iso_text Y2 M2 D2 h2 m2 s2) = Lt.
Proof.
  intros. unfold iso_text.
  repeat first
    [ rewrite compare_two_digits by (Z.div_mod_to_equations; lia)
    | rewrite compare_same_char ].
  destruct (Z.compare_spec (Y1 / 100) (Y2 / 100));
    [|reflexivity|exfalso; Z.div_mod_to_equations; lia].
  destruct (Z.compare_spec (Y1 mod 100) (Y2 mod 100));
    [|reflexivity|exfalso; Z.div_mod_to_equations; lia].
  assert (Y1 = Y2) by (Z.div_mod_to_equations; lia).
  destruct (Z.compare_spec M1 M2); [|reflexivity|exfalso; lia].
  destruct (Z.compare_spec D1 D2); [|reflexivity|exfalso; lia].
  destruct (Z.compare_spec h1 h2); [|reflexivity|exfalso; lia].
  destruct (Z.compare_spec m1 m2); [|reflexivity|exfalso; lia].
  destruct (Z.compare_spec s1 s2); [exfalso; lia|reflexivity|exfalso; lia].
Qed.

(** X15. Two calls on hosts with the same fixed offset from UTC: when the
    clock of the second is later by at least a second and both wall-clock
    readings have four-digit years, the second [CurrentDatetime] is strictly
    above the first; texts in this range sort as the instants do and distinct
    instants never share a text. *)
Theorem getClockInfo_current_increasing h1 h2 stack1 stack2 now1 now2 off ci1 ci2 :
  host_time h1 = Some now1 -> host_time h2 = Some now2 ->
  host_utc_offset h1 now1 = off -> host_utc_offset h2 now2 = off ->
  four_digit_year (now1 + off) -> four_digit_year (now2 + off) ->
  now1 < now2 ->
  getClockInfo h1 stack1 = Returned ci1 ->
  getClockInfo h2 stack2 = Returned ci2 ->
  String.compare (CurrentDatetime ci1) (CurrentDatetime ci2) = Lt /\
  CurrentDatetime ci1 <> CurrentDatetime ci2.
Proof.
  intros Ht1 Ht2 Ho1 Ho2 H1 H2 Hlt Hr1 Hr2.
  destruct (getClockInfo_returned _ _ _ Hr1)
    as (ts1 & _ & _ & Hl1 & _ & _ & E1 & _).
  destruct (getClockInfo_returned _ _ _ Hr2)
    as (ts2 & _ & _ & Hl2 & _ & _ & E2 & _).
  unfold time in Hl1, Hl2. rewrite Ht1 in Hl1. rewrite Ht2 in Hl2.
  rewrite localtime_four_digit_year in Hl1 by (rewrite Ho1; exact H1).
  rewrite localtime_four_digit_year in Hl2 by (rewrite Ho2; exact H2).
  injection Hl1 as <-. injection Hl2 as <-. rewrite Ho1 in E1. rewrite Ho2 in E2.
  assert (Hc : String.compare (CurrentDatetime ci1) (CurrentDatetime ci2) = Lt).
  { rewrite E1, E2.
    pose proof (offtime_year _ H1) as Y1. pose proof (offtime_year _ H2) as Y2.
    pose proof (offtime_fields (now1 + off)) as (S1 & M1 & Hr1' & D1 & Mo1).
    pose proof (offtime_fields (now2 + off)) as (S2 & M2 & Hr2' & D2 & Mo2).
    pose proof (offtime_increasing (now1 + off) (now2 + off) ltac:(lia)) as Hs.
    unfold stamp_lt in Hs.
    rewrite !expand_iso_text by lia. apply iso_text_lt; lia. }
  split; [exact Hc|]. intros E. rewrite E in Hc.
  pose proof (String.compare_antisym (CurrentDatetime ci2) (CurrentDatetime ci2))
    as Ha.
  rewrite Hc in Ha. discriminate Ha.
Qed.

Lemma getClockInfo_current_increasing_witness :
  String.compare
    (CurrentDatetime {| BootDatetime := "2023-10-28T02:00:00Z";
                        CurrentDatetime := "2023-10-29T02:00:00Z" |})
    (CurrentDatetime {| BootDatetime := "2023-10-28T02:00:01Z";
                        CurrentDatetime := "2023-10-29T02:00:01Z" |}) = Lt /\
  CurrentDatetime {| BootDatetime := "2023-10-28T02:00:00Z";
                     CurrentDatetime := "2023-10-29T02:00:00Z" |}
  <> CurrentDatetime {| BootDatetime := "2023-10-28T02:00:01Z";
                        CurrentDatetime := "2023-10-29T02:00:01Z" |}.
Proof.
  apply (getClockInfo_current_increasing
    {| host_time := Some 1698541200; host_utc_offset := fun _ => 3600;
       host_sysinfo := Some 86400 |}
    {| host_time := Some 1698541201; host_utc_offset := fun _ => 3600;
       host_sysinfo := Some 86400 |}
    (EmptyString, EmptyString) (EmptyString, EmptyString)
    1698541200 1698541201 3600);
    try reflexivity; try (unfold four_digit_year; simpl; lia);
    vm_compute; reflexivity.
Defined.

End ClockExtras.

(** ** The host name and the platform *)

Section HostInfoExtras.
Import Clock HostInfo.

(** The call on a kernel that answers [uname]: the node name when it has at
    most [HOSTNAME_MAX_LEN] characters, an error otherwise. *)
Lemma getHostname_answered MAX buf :
  getHostname MAX (Some buf)
  = if (MAX <? String.length (c_str (nodename buf)))%nat
    then Thrown "Failed to get hostname."
    else Returned (c_str (nodename buf)).
Proof.
  unfold getHostname, gethostname, uname.
  set (chars := list_ascii_of_string (c_str (nodename buf))).
  assert (Hlen : length chars = String.length (c_str (nodename buf))).
  { unfold chars. rewrite <- (string_of_list_ascii_of_string (c_str (nodename buf))) at 2.
    symmetry. apply string_length_of_list. }
  rewrite length_app. simpl length. rewrite <- Hlen.
  destruct (Nat.ltb_spec (MAX + 1) (length chars + 1));
    destruct (Nat.ltb_spec MAX (length chars)); try lia.
  - reflexivity.
  - change (0 <? 0) with false. cbv iota. f_equal.
    rewrite Nat.min_r by lia.
    rewrite take_ge by (rewrite length_app; simpl; lia).
    rewrite store_fits
      by (rewrite length_app, length_replicate; simpl; lia).
    rewrite <- app_assoc. simpl.
    rewrite c_str_app_nul by apply c_str_chars.
    apply string_of_list_ascii_of_string.
Qed.

(** X16. [getHostname] returns a text exactly when [uname] succeeds and the
    node name has at most [HOSTNAME_MAX_LEN] characters, and the text is then
    the whole node name: a name that is too long is an error, never a cut
    name. *)
Theorem getHostname_returned MAX kernel s :
  getHostname MAX kernel = Returned s <->
  exists buf, kernel = Some buf /\ s = c_str (nodename buf) /\
              (String.length s <= MAX)%nat.
Proof.
  destruct kernel as [buf|].
  - rewrite getHostname_answered.
    destruct (Nat.ltb_spec MAX (String.length (c_str (nodename buf)))).
    + split; [discriminate|]. intros (b & [= <-] & -> & Hs). lia.
    + split.
      * intros [= <-]. exists buf. auto.
      * intros (b & [= <-] & -> & _). reflexivity.
  - split; [discriminate|]. intros (b & [=] & _).
Qed.

(** X17. On a kernel whose node name is a terminated array of 65 bytes, a
    limit of 64 or more never fails: the call returns the node name, of at
    most 64 characters. *)
Theorem getHostname_linux MAX buf :
  terminated 65 (nodename buf) ->
  (64 <= MAX)%nat ->
  getHostname MAX (Some buf) = Returned (c_str (nodename buf)) /\
  (String.length (c_str (nodename buf)) <= 64)%nat.
Proof.
  intros [Hsize Hnul] HMAX.
  pose proof (c_str_length_terminated _ Hnul) as Hlen. rewrite Hsize in Hlen.
  rewrite getHostname_answered.
  destruct (Nat.ltb_spec MAX (String.length (c_str (nodename buf)))); [lia|].
  split; [reflexivity|lia].
Qed.

Lemma getHostname_linux_witness :
  getHostname 64
    (Some {| sysname := list_ascii_of_string "Linux" ++ replicate 60 NUL;
             nodename := list_ascii_of_string "router-1" ++ replicate 57 NUL;
             release := list_ascii_of_string "6.1.0" ++ replicate 60 NUL;
             version := list_ascii_of_string "#1 SMP" ++ replicate 59 NUL;
             machine := list_ascii_of_string "x86_64" ++ replicate 59 NUL |})
  = Returned (c_str (list_ascii_of_string "router-1" ++ replicate 57 NUL)) /\
  (String.length (c_str (list_ascii_of_string "router-1" ++ replicate 57 NUL))
   <= 64)%nat.
Proof.
  apply (getHostname_linux 64
    {| sysname := list_ascii_of_string "Linux" ++ replicate 60 NUL;
       nodename := list_ascii_of_string "router-1" ++ replicate 57 NUL;
       release := list_ascii_of_string "6.1.0" ++ replicate 60 NUL;
       version := list_ascii_of_string "#1 SMP" ++ replicate 59 NUL;
       machine := list_ascii_of_string "x86_64" ++ replicate 59 NUL |});
    [|lia].
  split; [reflexivity|]. apply elem_of_app. right.
  apply elem_of_replicate. split; [reflexivity|lia].
Defined.

(** X18. On a kernel whose arrays are terminated arrays of 65 bytes,
    [getPlatformInfo] returns the system name, the release, the version and
    the machine as the strings the arrays hold, each of at most 64
    characters; the node name is not part of the record. *)
Theorem getPlatformInfo_linux u :
  terminated 65 (sysname u) -> terminated 65 (release u) ->
  terminated 65 (version u) -> terminated 65 (machine u) ->
  exists p,
    getPlatformInfo (Some u) = Returned p /\
    OsName p = c_str (sysname u) /\ OsRelease p = c_str (release u) /\
    OsVersion p = c_str (version u) /\ Machine p = c_str (machine u) /\
    (String.length (OsName p) <= 64)%nat /\
    (String.length (OsRelease p) <= 64)%nat /\
    (String.length (OsVersion p) <= 64)%nat /\
    (String.length (Machine p) <= 64)%nat.
Proof.
  intros [S1 N1] [S2 N2] [S3 N3] [S4 N4].
  pose proof (c_str_length_terminated _ N1) as L1.
  pose proof (c_str_length_terminated _ N2) as L2.
  pose proof (c_str_length_terminated _ N3) as L3.
  pose proof (c_str_length_terminated _ N4) as L4.
  eexists. split; [reflexivity|]. cbn [OsName OsRelease OsVersion Machine].
  repeat split; lia.
Qed.

Ltac kernel_array :=
  split; [reflexivity|];
  apply elem_of_app; right; apply elem_of_replicate; split; [reflexivity|lia].

Lemma getPlatformInfo_linux_witness :
  exists p,
    getPlatformInfo
      (Some {| sysname := list_ascii_of_string "Linux" ++ replicate 60 NUL;
               nodename := list_ascii_of_string "router-1" ++ replicate 57 NUL;
               release := list_ascii_of_string "6.1.0" ++ replicate 60 NUL;
               version := list_ascii_of_string "#1 SMP" ++ replicate 59 NUL;
               machine := list_ascii_of_string "x86_64" ++ replicate 59 NUL |})
    = Returned p /\
    OsName p = c_str (list_ascii_of_string "Linux" ++ replicate 60 NUL) /\
    OsRelease p = c_str (list_ascii_of_string "6.1.0" ++ replicate 60 NUL) /\
    OsVersion p = c_str (list_ascii_of_string "#1 SMP" ++ replicate 59 NUL) /\
    Machine p = c_str (list_ascii_of_string "x86_64" ++ replicate 59 NUL) /\
    (String.length (OsName p) <= 64)%nat /\
    (String.length (OsRelease p) <= 64)%nat /\
    (String.length (OsVersion p) <= 64)%nat /\
    (String.length (Machine p) <= 64)%nat.
Proof.
  apply (getPlatformInfo_linux
    {| sysname := list_ascii_of_string "Linux" ++ replicate 60 NUL;
       nodename := list_ascii_of_string "router-1" ++ replicate 57 NUL;
       release := list_ascii_of_string "6.1.0" ++ replicate 60 NUL;
       version := list_ascii_of_string "#1 SMP" ++ replicate 59 NUL;
       machine := list_ascii_of_string "x86_64" ++ replicate 59 NUL |});
    kernel_array.
Defined.

End HostInfoExtras.

Section BoundsWitnesses.
Import Plain.

Lemma plain_to_str_in_bounds_witness :
  length (list_ascii_of_string "10." ++ NUL :: replicate 8 "x"%char)
  = length (replicate 12 "x"%char) /\
  forall i : nat, (4 <= i)%nat ->
    (list_ascii_of_string "10." ++ NUL :: replicate 8 "x"%char) !! i
    = replicate 12 "x"%char !! i.
Proof.
  apply (plain_to_str_in_bounds
    {| blocks := {[ 4096 := "10.0.0.1"%string ]}; freed := [] |}
    {| family := AF_INET; value := 4096 |} (replicate 12 "x"%char) 4 0).
  vm_compute. reflexivity.
Defined.

End BoundsWitnesses.
